(** * mcp-go-wrapper: schema derivation, validation gate and tool binding

    A shallow embedding of the Go package [mcpwrapper] (wrapper.go,
    validator.go, cobra.go) together with the parts of its collaborators
    (strings, fmt, reflect, encoding/json, mcp-go, go-playground/validator)
    that the package calls.  Go strings are byte strings ([string]); Go's
    [int] is a 64-bit integer carried as [Z]; a Go map is a [gmap]. *)

From Stdlib Require Import ZArith String Ascii List Bool Lia.
From stdpp Require Import base option list gmap strings.

Local Open Scope string_scope.
Local Open Scope Z_scope.
Local Open Scope list_scope.
Set Warnings "-register-all".

(** ** Outcomes of a Go call: a normal return or a run-time panic *)

Inductive outcome (A : Type) : Type :=
| Return (a : A)
| Panic (msg : string).
Arguments Return {A} a.
Arguments Panic {A} msg.

(** ** Package strings *)

Module strings.

Definition HasPrefix (s prefix : string) : bool := String.prefix prefix s.

Fixpoint drop (n : nat) (s : string) : string :=
  match n, s with
  | O, _ => s
  | S n', String _ s' => drop n' s'
  | S _, EmptyString => EmptyString
  end.

Definition TrimPrefix (s prefix : string) : string :=
  if HasPrefix s prefix then drop (String.length prefix) s else s.

(** [Contains s substr]: [substr] occurs somewhere in [s]. *)
Fixpoint Contains (s substr : string) : bool :=
  String.prefix substr s ||
  match s with
  | EmptyString => false
  | String _ s' => Contains s' substr
  end.

(** [Split s sep] for a one-byte separator: the pieces between the
    separators, one more than there are separators. *)
Fixpoint Split (s : string) (sep : ascii) : list string :=
  match s with
  | EmptyString => [EmptyString]
  | String c s' =>
      if Ascii.eqb c sep then EmptyString :: Split s' sep
      else match Split s' sep with
           | p :: ps => String c p :: ps
           | [] => [String c EmptyString]
           end
  end.

Definition Join (elems : list string) (sep : string) : string :=
  String.concat sep elems.

Definition byte (c : ascii) : N := N_of_ascii c.

Definition asciiSpace (c : ascii) : bool :=
  let b := byte c in
  ((9 <=? b) && (b <=? 13) || (b =? 32))%N.

(** Width in bytes of the white-space rune (unicode.IsSpace) that the
    UTF-8 text [s] starts with, [0] when it starts with none:
    U+0009..U+000D, U+0020, U+0085, U+00A0, U+1680, U+2000..U+200A,
    U+2028, U+2029, U+202F, U+205F, U+3000. *)
Definition leadingSpace (s : string) : nat :=
  match s with
  | EmptyString => 0
  | String c0 r0 =>
      if asciiSpace c0 then 1
      else match r0 with
           | EmptyString => 0
           | String c1 r1 =>
               let b0 := byte c0 in
               let b1 := byte c1 in
               if ((b0 =? 194) && ((b1 =? 133) || (b1 =? 160)))%N then 2
               else match r1 with
                    | EmptyString => 0
                    | String c2 _ =>
                        let b2 := byte c2 in
                        if ((b0 =? 225) && (b1 =? 154) && (b2 =? 128)
                            || (b0 =? 226) && (b1 =? 128)
                               && ((128 <=? b2) && (b2 <=? 138)
                                   || (b2 =? 168) || (b2 =? 169) || (b2 =? 175))
                            || (b0 =? 226) && (b1 =? 129) && (b2 =? 159)
                            || (b0 =? 227) && (b1 =? 128) && (b2 =? 128))%N
                        then 3 else 0
                    end
           end
  end%nat.

Fixpoint rev_acc (s acc : string) : string :=
  match s with
  | EmptyString => acc
  | String c s' => rev_acc s' (String c acc)
  end.

Definition rev (s : string) : string := rev_acc s EmptyString.

(** Width of the white-space rune the text ends with, read off the
    reversed text [r] (the last byte first). *)
Definition trailingSpace (r : string) : nat :=
  match r with
  | EmptyString => 0
  | String c0 r0 =>
      if asciiSpace c0 then 1
      else match r0 with
           | EmptyString => 0
           | String c1 r1 =>
               if (leadingSpace (String c1 (String c0 EmptyString)) =? 2)%nat
               then 2
               else match r1 with
                    | EmptyString => 0
                    | String c2 _ =>
                        if (leadingSpace
                              (String c2 (String c1 (String c0 EmptyString))) =? 3)%nat
                        then 3 else 0
                    end
           end
  end%nat.

Fixpoint TrimLeft (fuel : nat) (s : string) : string :=
  match fuel with
  | O => s
  | S fuel' =>
      match leadingSpace s with
      | O => s
      | w => TrimLeft fuel' (drop w s)
      end
  end.

Fixpoint TrimRight (fuel : nat) (r : string) : string :=
  match fuel with
  | O => r
  | S fuel' =>
      match trailingSpace r with
      | O => r
      | w => TrimRight fuel' (drop w r)
      end
  end.

(** [TrimSpace s]: [s] without leading and trailing white space. *)
Definition TrimSpace (s : string) : string :=
  let l := TrimLeft (String.length s) s in
  rev (TrimRight (String.length l) (rev l)).

End strings.

(** ** Package strconv and fmt: decimal integers *)

Module strconv.

Definition isDigit (c : ascii) : bool :=
  let b := N_of_ascii c in ((48 <=? b) && (b <=? 57))%N.

Fixpoint digits (s : string) (acc : Z) : option Z :=
  match s with
  | EmptyString => Some acc
  | String c s' =>
      if isDigit c
      then digits s' (10 * acc + (Z.of_N (N_of_ascii c) - 48))
      else None
  end.

(** [ParseInt s 10 64]: an optional sign and one or more decimal digits,
    the value within the signed 64-bit range. *)
Definition ParseInt (s : string) : option Z :=
  let '(neg, body) :=
    match s with
    | String "-" r => (true, r)
    | String "+" r => (false, r)
    | _ => (false, s)
    end in
  match body with
  | EmptyString => None
  | _ =>
      match digits body 0 with
      | Some n =>
          let v := if neg then - n else n in
          if (- 2 ^ 63 <=? v) && (v <=? 2 ^ 63 - 1) then Some v else None
      | None => None
      end
  end.

Fixpoint uitoa (fuel : nat) (n : Z) (acc : string) : string :=
  match fuel with
  | O => acc
  | S fuel' =>
      let acc' := String (ascii_of_N (Z.to_N (48 + n mod 10))) acc in
      if n / 10 =? 0 then acc' else uitoa fuel' (n / 10) acc'
  end.

(** [Itoa n]: the decimal text of [n]. *)
Definition Itoa (n : Z) : string :=
  if n <? 0 then String "-" (uitoa (S (Z.to_nat (Z.log2 (- n)))) (- n) EmptyString)
  else uitoa (S (Z.to_nat (Z.log2 n))) n EmptyString.

End strconv.

Module fmt.

(** The scanner's SkipSpace as Sscanf runs it: white space is skipped,
    a newline is an error ([None]). *)
Fixpoint SkipSpace (fuel : nat) (s : string) : option string :=
  match fuel with
  | O => Some s
  | S fuel' =>
      match s with
      | String c _ =>
          if (N_of_ascii c =? 10)%N then None
          else match strings.leadingSpace s with
               | O => Some s
               | w => SkipSpace fuel' (strings.drop w s)
               end
      | EmptyString => Some s
      end
  end.

Definition isSign (c : ascii) : bool :=
  (N_of_ascii c =? 43)%N || (N_of_ascii c =? 45)%N.

(** The longest prefix of [s] made of characters accepted by [ok]. *)
Fixpoint accepted (ok : ascii -> bool) (s : string) : string :=
  match s with
  | String c s' => if ok c then String c (accepted ok s') else EmptyString
  | EmptyString => EmptyString
  end.

(** [Sscanf_d s] is [fmt.Sscanf(s, "%d", &i)] for [i] of type [int]:
    [Some i] when the error is nil.  Leading space is skipped, an
    optional sign and the longest run of decimal digits form the token,
    strconv.ParseInt converts it; whatever follows the token in [s] is
    left unread and is no error. *)
Definition Sscanf_d (s : string) : option Z :=
  match SkipSpace (String.length s) s with
  | None => None
  | Some EmptyString => None
  | Some (String c r as s1) =>
      let '(sign, s2) :=
        if isSign c then (String c EmptyString, r) else (EmptyString, s1) in
      match accepted strconv.isDigit s2 with
      | EmptyString => None
      | tok => strconv.ParseInt (sign +:+ tok)
      end
  end.

End fmt.

(** ** Package reflect: types as the wrapper inspects them *)

Module reflect.

Inductive Kind : Set :=
| Invalid | Bool | Int | Int8 | Int16 | Int32 | Int64
| Uint | Uint8 | Uint16 | Uint32 | Uint64 | Uintptr
| Float32 | Float64 | Complex64 | Complex128
| Array | Chan | Func | Interface | Map | Ptr | Slice
| String | Struct | UnsafePointer.

Definition Kind_eqb (a b : Kind) : bool :=
  match a, b with
  | Invalid, Invalid | Bool, Bool | Int, Int | Int8, Int8 | Int16, Int16
  | Int32, Int32 | Int64, Int64 | Uint, Uint | Uint8, Uint8
  | Uint16, Uint16 | Uint32, Uint32 | Uint64, Uint64 | Uintptr, Uintptr
  | Float32, Float32 | Float64, Float64 | Complex64, Complex64
  | Complex128, Complex128 | Array, Array | Chan, Chan | Func, Func
  | Interface, Interface | Map, Map | Ptr, Ptr | Slice, Slice
  | String, String | Struct, Struct | UnsafePointer, UnsafePointer => true
  | _, _ => false
  end.

(** [Kind.String()] *)
Definition KindString (k : Kind) : string :=
  match k with
  | Invalid => "invalid" | Bool => "bool" | Int => "int" | Int8 => "int8"
  | Int16 => "int16" | Int32 => "int32" | Int64 => "int64"
  | Uint => "uint" | Uint8 => "uint8" | Uint16 => "uint16"
  | Uint32 => "uint32" | Uint64 => "uint64" | Uintptr => "uintptr"
  | Float32 => "float32" | Float64 => "float64"
  | Complex64 => "complex64" | Complex128 => "complex128"
  | Array => "array" | Chan => "chan" | Func => "func"
  | Interface => "interface" | Map => "map" | Ptr => "ptr"
  | Slice => "slice" | String => "string" | Struct => "struct"
  | UnsafePointer => "unsafe.Pointer"
  end.

(** A struct tag, already split into its key:"value" pairs. *)
Definition StructTag : Set := list (string * string).

(** [tag.Get(key)]: the value of the first pair with that key, the empty
    string when there is none. *)
Fixpoint Get (tag : StructTag) (key : string) : string :=
  match tag with
  | [] => EmptyString
  | (k, v) :: rest => if String.eqb k key then v else Get rest key
  end.

(** [reflect.Type]: one constructor per kind of Go type; a struct type
    carries its name and its fields in declaration order. *)
Inductive rtype : Set :=
| TBool | TInt | TInt8 | TInt16 | TInt32 | TInt64
| TUint | TUint8 | TUint16 | TUint32 | TUint64 | TUintptr
| TFloat32 | TFloat64 | TComplex64 | TComplex128
| TString | TUnsafePointer | TFunc | TInterface
| TArray (len : nat) (elem : rtype)
| TChan (elem : rtype)
| TMap (key elem : rtype)
| TPtr (elem : rtype)
| TSlice (elem : rtype)
| TStruct (name : string) (fields : list StructField)
with StructField : Set :=
| mkStructField (Name PkgPath : string) (Typ : rtype) (Tag : StructTag).

Definition Name (f : StructField) : string :=
  let 'mkStructField n _ _ _ := f in n.
(** [PkgPath] is empty for an exported field. *)
Definition PkgPath (f : StructField) : string :=
  let 'mkStructField _ p _ _ := f in p.
Definition Typ (f : StructField) : rtype :=
  let 'mkStructField _ _ t _ := f in t.
Definition Tag (f : StructField) : StructTag :=
  let 'mkStructField _ _ _ t := f in t.

(** [t.Kind()] *)
Definition KindOf (t : rtype) : Kind :=
  match t with
  | TBool => Bool | TInt => Int | TInt8 => Int8 | TInt16 => Int16
  | TInt32 => Int32 | TInt64 => Int64 | TUint => Uint | TUint8 => Uint8
  | TUint16 => Uint16 | TUint32 => Uint32 | TUint64 => Uint64
  | TUintptr => Uintptr | TFloat32 => Float32 | TFloat64 => Float64
  | TComplex64 => Complex64 | TComplex128 => Complex128
  | TString => String | TUnsafePointer => UnsafePointer | TFunc => Func
  | TInterface => Interface | TArray _ _ => Array | TChan _ => Chan
  | TMap _ _ => Map | TPtr _ => Ptr | TSlice _ => Slice
  | TStruct _ _ => Struct
  end.

(** [t.Elem()], which the wrapper calls on pointer types only. *)
Definition Elem (t : rtype) : rtype :=
  match t with
  | TPtr e => e
  | _ => t
  end.

(** The type itself, or the type a pointer type points to. *)
Definition Indirect (t : rtype) : rtype :=
  match t with
  | TPtr e => e
  | _ => t
  end.

(** The fields [t.Field(0)], ..., [t.Field(t.NumField()-1)] of a struct
    type. *)
Definition Fields (t : rtype) : list StructField :=
  match t with
  | TStruct _ fields => fields
  | _ => []
  end.

(** [t.String()] *)
Fixpoint TypeString (t : rtype) : string :=
  match t with
  | TArray n e => "[" +:+ strconv.Itoa (Z.of_nat n) +:+ "]" +:+ TypeString e
  | TChan e => "chan " +:+ TypeString e
  | TMap k e => "map[" +:+ TypeString k +:+ "]" +:+ TypeString e
  | TPtr e => "*" +:+ TypeString e
  | TSlice e => "[]" +:+ TypeString e
  | TStruct name _ => name
  | TFunc => "func()"
  | TInterface => "interface {}"
  | _ => KindString (KindOf t)
  end.

End reflect.

(** ** Go values
    The values that travel through a call: request arguments, the fields
    of a decoded argument struct, a handler's result.  [VNil] is a nil
    interface, pointer, slice or map; [VSlice] a slice that is not nil, or
    an array; [VObject] a string-keyed map, or a struct that encoding/json
    encodes field by field, under its wire names; [VChan] a value
    encoding/json cannot encode.  Numbers are integers.  A value of a type
    with a MarshalJSON or MarshalText method of its own is not among
    them. *)

Inductive value : Set :=
| VNil
| VBool (b : bool)
| VInt (n : Z)
| VString (s : string)
| VSlice (elems : list value)
| VObject (members : list (string * value))
| VChan.

(** ** Package encoding/json *)

Module json.

Section Marshal.
(** The escaping encoding/json applies inside a string literal. *)
Variable escape : string -> string.

Definition dquote : ascii := ascii_of_N 34.

Definition quote (s : string) : string :=
  String dquote (escape s) +:+ String dquote EmptyString.

(** [json.Marshal v]: the JSON text, or the error's message. *)
Fixpoint Marshal (v : value) : string + string :=
  match v with
  | VNil => inl "null"
  | VBool true => inl "true"
  | VBool false => inl "false"
  | VInt n => inl (strconv.Itoa n)
  | VString s => inl (quote s)
  | VSlice elems =>
      match
        (fix items (l : list value) : (list string) + string :=
           match l with
           | [] => inl []
           | x :: l' =>
               match Marshal x, items l' with
               | inl t, inl ts => inl (t :: ts)
               | inr e, _ => inr e
               | _, inr e => inr e
               end
           end) elems
      with
      | inl ts => inl ("[" +:+ String.concat "," ts +:+ "]")
      | inr e => inr e
      end
  | VObject members =>
      match
        (fix items (l : list (string * value)) : (list string) + string :=
           match l with
           | [] => inl []
           | (k, x) :: l' =>
               match Marshal x, items l' with
               | inl t, inl ts => inl ((quote k +:+ ":" +:+ t) :: ts)
               | inr e, _ => inr e
               | _, inr e => inr e
               end
           end) members
      with
      | inl ts => inl ("{" +:+ String.concat "," ts +:+ "}")
      | inr e => inr e
      end
  | VChan => inr "json: unsupported type: chan int"
  end.
End Marshal.

(** [json.Unmarshal(data, &m)] for [m] of type map[string]interface{} and
    [data] a JSON text as Marshal produces it: nil for an object and for
    null, an UnmarshalTypeError (its message) for any other value. *)
Definition UnmarshalMap (data : string) : option string :=
  let no what :=
    Some ("json: cannot unmarshal " +:+ what
          +:+ " into Go value of type map[string]interface {}") in
  match data with
  | String "{" _ => None
  | String "n" _ => None
  | String "[" _ => no "array"
  | String "t" _ | String "f" _ => no "bool"
  | String c _ => if Ascii.eqb c (ascii_of_N 34) then no "string" else no "number"
  | EmptyString => Some "unexpected end of JSON input"
  end.

(** *** Decoding into an argument struct
    The fragment of [json.Unmarshal(data, target)] the tools exercise:
    [target] points to a fresh value of the argument type, a struct whose
    fields are texts, integers and booleans; a field of another kind
    takes the JSON value as it comes.  Error texts are indicative. *)

(** The argument value behind the pointer [reflect.New(t)] returns: the
    values of the fields of the struct [t] (of the struct [t] points to),
    in declaration order. *)
Record Instance : Set := mkInstance {
  ityp : reflect.rtype;
  ivals : list value
}.

Definition zero (t : reflect.rtype) : value :=
  match reflect.KindOf t with
  | reflect.String => VString EmptyString
  | reflect.Bool => VBool false
  | reflect.Int | reflect.Int8 | reflect.Int16 | reflect.Int32 | reflect.Int64
  | reflect.Uint | reflect.Uint8 | reflect.Uint16 | reflect.Uint32
  | reflect.Uint64 | reflect.Uintptr | reflect.Float32 | reflect.Float64 => VInt 0
  | reflect.Struct => VObject []
  | _ => VNil
  end.

Definition New (t : reflect.rtype) : Instance :=
  {| ityp := t;
     ivals := map (fun f => zero (reflect.Typ f)) (reflect.Fields (reflect.Indirect t)) |}.

Definition lower (c : ascii) : ascii :=
  let b := N_of_ascii c in
  if ((65 <=? b) && (b <=? 90))%N then ascii_of_N (b + 32) else c.

Fixpoint EqualFold (a b : string) : bool :=
  match a, b with
  | EmptyString, EmptyString => true
  | String x a', String y b' => Ascii.eqb (lower x) (lower y) && EqualFold a' b'
  | _, _ => false
  end.

(** The object key a field is decoded from; [None] for a field
    encoding/json ignores (unexported, or tagged "-"). *)
Definition key (f : reflect.StructField) : option string :=
  if negb (String.eqb (reflect.PkgPath f) "") then None
  else
    let tag := reflect.Get (reflect.Tag f) "json" in
    if String.eqb tag "-" then None
    else
      let name := hd EmptyString (strings.Split tag ",") in
      Some (if String.eqb name "" then reflect.Name f else name).

Fixpoint indexWhere {A} (p : A -> bool) (l : list A) : option nat :=
  match l with
  | [] => None
  | x :: l' => if p x then Some O else option_map S (indexWhere p l')
  end.

(** The field an object key goes to: the one with exactly that key,
    else the first whose key matches ignoring case. *)
Definition fieldFor (fields : list reflect.StructField) (k : string) : option nat :=
  match indexWhere (fun f => match key f with
                             | Some n => String.eqb n k
                             | None => false
                             end) fields with
  | Some i => Some i
  | None => indexWhere (fun f => match key f with
                                 | Some n => EqualFold n k
                                 | None => false
                                 end) fields
  end.

Definition inRange (k : reflect.Kind) (n : Z) : bool :=
  match k with
  | reflect.Int8 => (- 2 ^ 7 <=? n) && (n <? 2 ^ 7)
  | reflect.Int16 => (- 2 ^ 15 <=? n) && (n <? 2 ^ 15)
  | reflect.Int32 => (- 2 ^ 31 <=? n) && (n <? 2 ^ 31)
  | reflect.Int | reflect.Int64 => (- 2 ^ 63 <=? n) && (n <? 2 ^ 63)
  | reflect.Uint8 => (0 <=? n) && (n <? 2 ^ 8)
  | reflect.Uint16 => (0 <=? n) && (n <? 2 ^ 16)
  | reflect.Uint32 => (0 <=? n) && (n <? 2 ^ 32)
  | reflect.Uint | reflect.Uint64 | reflect.Uintptr => (0 <=? n) && (n <? 2 ^ 64)
  | _ => true
  end.

Definition describe (v : value) : string :=
  match v with
  | VNil => "null"
  | VBool _ => "bool"
  | VInt n => "number " +:+ strconv.Itoa n
  | VString _ => "string"
  | VSlice _ => "array"
  | VObject _ => "object"
  | VChan => "value"
  end.

(** Storing the JSON value [v] into a field of type [t] holding [old]:
    the new content, or [None] on a type mismatch. *)
Definition store (t : reflect.rtype) (v old : value) : option value :=
  match v, reflect.KindOf t with
  | VNil, (reflect.Interface | reflect.Ptr | reflect.Map | reflect.Slice) => Some VNil
  | VNil, _ => Some old
  | VString _, reflect.String => Some v
  | _, reflect.String => None
  | VBool _, reflect.Bool => Some v
  | _, reflect.Bool => None
  | VInt n, (reflect.Int | reflect.Int8 | reflect.Int16 | reflect.Int32
             | reflect.Int64 | reflect.Uint | reflect.Uint8 | reflect.Uint16
             | reflect.Uint32 | reflect.Uint64 | reflect.Uintptr) as k =>
      if inRange k n then Some v else None
  | _, (reflect.Int | reflect.Int8 | reflect.Int16 | reflect.Int32
        | reflect.Int64 | reflect.Uint | reflect.Uint8 | reflect.Uint16
        | reflect.Uint32 | reflect.Uint64 | reflect.Uintptr) => None
  | _, _ => Some v
  end.

(** One member of the JSON object: the values and the first error. *)
Definition member (name : string) (fields : list reflect.StructField)
    (st : list value * option string) (m : string * value) :
    list value * option string :=
  let '(vals, first) := st in
  let '(k, v) := m in
  match fieldFor fields k with
  | None => st
  | Some i =>
      match fields !! i, vals !! i with
      | Some f, Some old =>
          match store (reflect.Typ f) v old with
          | Some new => (<[ i := new ]> vals, first)
          | None =>
              (vals,
               match first with
               | Some _ => first
               | None =>
                   Some ("json: cannot unmarshal " +:+ describe v
                         +:+ " into Go struct field " +:+ name +:+ "." +:+ k
                         +:+ " of type " +:+ reflect.TypeString (reflect.Typ f))
               end)
          end
      | _, _ => st
      end
  end.

(** [json.Unmarshal] of the JSON text of [v] into [target]. *)
Definition Unmarshal (v : value) (target : Instance) : Instance * option string :=
  match v with
  | VNil => (target, None)
  | VObject members =>
      let t := reflect.Indirect (ityp target) in
      let '(vals, err) :=
        fold_left (member (reflect.TypeString t) (reflect.Fields t)) members
                  (ivals target, None) in
      ({| ityp := ityp target; ivals := vals |}, err)
  | _ =>
      (target,
       Some ("json: cannot unmarshal " +:+ describe v +:+ " into Go value of type "
             +:+ reflect.TypeString (ityp target)))
  end.

End json.

(** ** Package validator (github.com/go-playground/validator/v10) *)

Module validator.

(** [validator.FieldError], by the methods the wrapper calls. *)
Record FieldError : Set := mkFieldError {
  Field : string;
  Tag : string;
  Param : string;
  Namespace : string
}.

(** [fe.Error()] *)
Definition FieldErrorText (fe : FieldError) : string :=
  "Key: '" +:+ Namespace fe +:+ "' Error:Field validation for '" +:+ Field fe
  +:+ "' failed on the '" +:+ Tag fe +:+ "' tag".

(** *** The engine
    The fragment of [validate.Struct] the tools exercise: the exported
    fields that carry a validate tag are visited in declaration order;
    a field's rules run left to right and the first one that fails is
    reported, under the Go name of the field, and ends that field;
    [omitempty] ends a field that holds its zero value.  [required],
    [omitempty], [min], [max], [gte], [lte], [gt], [lt], [len] and
    [oneof] are evaluated here, on texts, integers and slices, with
    decimal parameters; [others] is the table of the remaining rules. *)

Inductive result : Set :=
| Valid
| Invalid (errs : list FieldError)
| InvalidValidationError (typ : string).

Definition hasValue (v : value) : bool :=
  match v with
  | VNil => false
  | VBool b => b
  | VInt n => negb (n =? 0)
  | VString s => negb (String.eqb s "")
  | VSlice _ | VObject _ | VChan => true
  end.

Fixpoint RuneCountInString (s : string) : Z :=
  match s with
  | EmptyString => 0
  | String c s' =>
      let b := N_of_ascii c in
      (if ((128 <=? b) && (b <? 192))%N then 0 else 1) + RuneCountInString s'
  end.

(** Texts measure by their length in runes, integers by their value,
    slices and maps by their size. *)
Definition measure (v : value) : option Z :=
  match v with
  | VString s => Some (RuneCountInString s)
  | VInt n => Some n
  | VSlice l => Some (Z.of_nat (length l))
  | VObject l => Some (Z.of_nat (length l))
  | _ => None
  end.

Definition ordering : list string := ["min"; "max"; "gte"; "lte"; "gt"; "lt"; "len"].

Definition compare (tag : string) (x p : Z) : bool :=
  if String.eqb tag "min" || String.eqb tag "gte" then p <=? x
  else if String.eqb tag "max" || String.eqb tag "lte" then x <=? p
  else if String.eqb tag "gt" then p <? x
  else if String.eqb tag "lt" then x <? p
  else x =? p.

Definition isSpace (c : ascii) : bool := strings.asciiSpace c.

(** The words of a [oneof] parameter. *)
Fixpoint Fields (s : string) (word : string) : list string :=
  let flush := if String.eqb word "" then [] else [strings.rev word] in
  match s with
  | EmptyString => flush
  | String c s' =>
      if isSpace c then flush ++ Fields s' EmptyString
      else Fields s' (String c word)
  end.

Definition others_t : Type := string -> option (string -> value -> bool).

Definition defined (others : others_t) (tag : string) : bool :=
  String.eqb tag "required" || String.eqb tag "omitempty"
  || String.eqb tag "oneof" || existsb (String.eqb tag) ordering
  || match others tag with Some _ => true | None => false end.

(** One rule on one value: whether it holds. *)
Definition check (others : others_t) (tag param : string) (v : value) :
    outcome bool :=
  if String.eqb tag "required" then Return (hasValue v)
  else if existsb (String.eqb tag) ordering then
    match measure v, strconv.ParseInt param with
    | Some x, Some p => Return (compare tag x p)
    | None, _ => Panic "Bad field type"
    | _, None => Panic ("strconv.ParseInt: parsing " +:+ param +:+ ": invalid syntax")
    end
  else if String.eqb tag "oneof" then
    match v with
    | VString s => Return (existsb (String.eqb s) (Fields param EmptyString))
    | VInt n => Return (existsb (String.eqb (strconv.Itoa n)) (Fields param EmptyString))
    | _ => Panic "Bad field type"
    end
  else
    match others tag with
    | Some f => Return (f param v)
    | None => Panic ("Undefined validation function '" +:+ tag +:+ "'")
    end.

(** A rule [tag=param], split at the first [=]. *)
Fixpoint rule (part : string) : string * string :=
  match part with
  | EmptyString => (EmptyString, EmptyString)
  | String c part' =>
      if Ascii.eqb c "=" then (EmptyString, part')
      else let '(tag, param) := rule part' in (String c tag, param)
  end.

Definition rules (f : reflect.StructField) : list (string * string) :=
  map rule (strings.Split (reflect.Get (reflect.Tag f) "validate") ",").

(** The rules of one field on its value: the violation, if any. *)
Fixpoint field (others : others_t) (ns name : string)
    (rs : list (string * string)) (v : value) : outcome (option FieldError) :=
  match rs with
  | [] => Return None
  | (tag, param) :: rest =>
      if String.eqb tag "omitempty" then
        if hasValue v then field others ns name rest v else Return None
      else
        match check others tag param v with
        | Panic msg => Panic msg
        | Return true => field others ns name rest v
        | Return false =>
            Return (Some {| Field := name; Tag := tag; Param := param;
                            Namespace := ns +:+ "." +:+ name |})
        end
  end.

Definition validated (f : reflect.StructField) : bool :=
  String.eqb (reflect.PkgPath f) ""
  && negb (String.eqb (reflect.Get (reflect.Tag f) "validate") "")
  && negb (String.eqb (reflect.Get (reflect.Tag f) "validate") "-").

(** The violation of one field of the struct, if it is validated. *)
Definition violation (others : others_t) (ns : string)
    (fv : reflect.StructField * value) : outcome (option FieldError) :=
  let '(f, v) := fv in
  if validated f then field others ns (reflect.Name f) (rules f) v
  else Return None.

(** The field is validated and one of its rules fails. *)
Definition violates (others : others_t) (ns : string)
    (fv : reflect.StructField * value) : bool :=
  match violation others ns fv with
  | Return (Some _) => true
  | _ => false
  end.

Fixpoint violations (others : others_t) (ns : string)
    (fvs : list (reflect.StructField * value)) : outcome (list FieldError) :=
  match fvs with
  | [] => Return []
  | fv :: rest =>
      match violation others ns fv with
      | Panic msg => Panic msg
      | Return e =>
          match violations others ns rest with
          | Panic msg => Panic msg
          | Return es => Return (match e with Some e => e :: es | None => es end)
          end
      end
  end.

(** The last component of a qualified type name. *)
Fixpoint baseName (s : string) : string :=
  match s with
  | EmptyString => EmptyString
  | String c s' =>
      if strings.Contains s' "." then baseName s' 
      else if Ascii.eqb c "." then s' else s
  end.

(** [validate.Struct(s)] on the argument value [s], a pointer to a value
    of type [ityp s]. *)
Definition Struct (others : others_t) (s : json.Instance) : outcome result :=
  match json.ityp s with
  | reflect.TStruct name fields =>
      if forallb (fun f => negb (validated f)
                           || forallb (fun r => defined others (fst r)) (rules f))
                 fields
      then
        match violations others (baseName name) (combine fields (json.ivals s)) with
        | Panic msg => Panic msg
        | Return [] => Return Valid
        | Return errs => Return (Invalid errs)
        end
      else Panic "Undefined validation function"
  | t =>
      Return (InvalidValidationError
                ("validator: (nil " +:+ reflect.TypeString (reflect.TPtr t) +:+ ")"))
  end.

End validator.

(** validator.go: [type ValidationError struct] *)
Record ValidationError : Set := mkValidationError {
  Field : string;
  Message : string
}.

(** ** Errors
    A Go [error] is known by its concrete type.  [errorString] stands for
    every error the wrapper only ever renders ([errors.New], a library's
    own error types); [wrapError] is what [fmt.Errorf] builds around a
    [%w] operand. *)

Inductive error : Set :=
| errorString (msg : string)
| wrapError (msg : string) (err : error)
| validator_ValidationErrors (errs : list validator.FieldError)
| ValidationErrors (errs : list ValidationError).

(** ** Package mcp and the server's tool table *)

Module mcp.

Record CallToolRequest : Set := mkCallToolRequest {
  Name : string;
  Arguments : value
}.

Record TextContent : Set := mkTextContent {
  Type_ : string;
  Text : string
}.

Record CallToolResult : Set := mkCallToolResult {
  Content : list TextContent;
  IsError : bool
}.

Definition NewToolResultText (text : string) : CallToolResult :=
  {| Content := [ {| Type_ := "text"; Text := text |} ]; IsError := false |}.

Definition NewToolResultError (text : string) : CallToolResult :=
  {| Content := [ {| Type_ := "text"; Text := text |} ]; IsError := true |}.

(** What a schema property holds: a text, an [int], a [float64] or a
    list of texts. *)
Inductive any (float64 : Type) : Type :=
| AString (s : string)
| AInt (i : Z)
| AFloat (f : float64)
| AStrings (l : list string).
Arguments AString {float64} s.
Arguments AInt {float64} i.
Arguments AFloat {float64} f.
Arguments AStrings {float64} l.

Record ToolInputSchema (float64 : Type) : Type := mkToolInputSchema {
  Type__ : string;
  Properties : gmap string (gmap string (any float64));
  Required : list string
}.
Arguments mkToolInputSchema {float64}.
Arguments Type__ {float64}.
Arguments Properties {float64}.
Arguments Required {float64}.

Record Tool (float64 : Type) : Type := mkTool {
  ToolName : string;
  Description : string;
  InputSchema : ToolInputSchema float64
}.
Arguments mkTool {float64}.
Arguments ToolName {float64}.
Arguments Description {float64}.
Arguments InputSchema {float64}.

(** [mcp.NewTool(name, WithDescription(description),
    WithString("input", Required(), Description(text)))] *)
Definition NewTool {float64} (name description text : string) : Tool float64 :=
  {| ToolName := name;
     Description := description;
     InputSchema :=
       {| Type__ := "object";
          Properties :=
            {[ "input" := <[ "description" := AString text ]>
                            {[ "type" := AString "string" ]} ]};
          Required := ["input"] |} |}.

End mcp.

(** ** The collaborators the package is linked against
    What the wrapper takes from its environment without looking inside:
    the floating-point scan of fmt, the string escaping of encoding/json,
    the representation of the argument value that [reflect.New] allocates,
    [request.BindArguments] filling it, the call context and the state of
    the world a handler may read and change. *)

Class Runtime : Type := {
  float64 : Type;
  (** [fmt.Sscanf(s, "%f", &f)]: [Some f] when the error is nil *)
  Sscanf_f : string -> option float64;
  escape : string -> string;
  interface : Type;
  (** [reflect.New(t).Interface()] *)
  reflect_New : reflect.rtype -> interface;
  (** [request.BindArguments(target)]: the target as filled, and the error *)
  BindArguments : mcp.CallToolRequest -> interface -> interface * option error;
  (** [validator.New().Struct(s)] *)
  validator_New_Struct : interface -> outcome (option error);
  Context_ : Type;
  World : Type
}.

Section Package.
Context `{RT : Runtime}.

(** *** validator.go *)

(** [func (e *ValidationError) Error() string] *)
Definition ValidationError_Error (e : ValidationError) : string :=
  Field e +:+ ": " +:+ Message e.

(** [func (e ValidationErrors) Error() string] *)
Definition ValidationErrors_Error (e : list ValidationError) : string :=
  let messages :=
    fold_left (fun messages err => messages ++ [ValidationError_Error err]) e [] in
  "validation failed: " +:+ strings.Join messages "; ".

(** [err.Error()] for each concrete error type. *)
Definition Error (e : error) : string :=
  match e with
  | errorString msg => msg
  | wrapError msg _ => msg
  | validator_ValidationErrors errs =>
      strings.TrimSpace
        (String.concat EmptyString
           (map (fun fe => validator.FieldErrorText fe +:+ String (ascii_of_N 10) EmptyString)
                errs))
  | ValidationErrors errs => ValidationErrors_Error errs
  end.

Definition formatFieldError (fieldErr : validator.FieldError) : string :=
  let tag := validator.Tag fieldErr in
  let param := validator.Param fieldErr in
  if String.eqb tag "required" then "is required"
  else if String.eqb tag "min" then "must be at least " +:+ param
  else if String.eqb tag "max" then "must be at most " +:+ param
  else if String.eqb tag "email" then "must be a valid email address"
  else if String.eqb tag "url" then "must be a valid URL"
  else if String.eqb tag "oneof" then "must be one of: " +:+ param
  else if String.eqb tag "gte" then "must be greater than or equal to " +:+ param
  else if String.eqb tag "lte" then "must be less than or equal to " +:+ param
  else if String.eqb tag "gt" then "must be greater than " +:+ param
  else if String.eqb tag "lt" then "must be less than " +:+ param
  else if String.eqb tag "len" then "must be " +:+ param +:+ " characters long"
  else "failed validation: " +:+ tag.

Definition formatValidationErrors (err : error) : error :=
  match err with
  | validator_ValidationErrors validationErrs =>
      ValidationErrors
        (fold_left
           (fun errors fieldErr =>
              errors ++ [ {| Field := validator.Field fieldErr;
                             Message := formatFieldError fieldErr |} ])
           validationErrs [])
  | _ => err
  end.

(** *** wrapper.go *)

Record Validate : Type := mkValidate {
  Struct : interface -> outcome (option error)
}.

(** [type Handler func(ctx, args) (interface{}, error)], threading the
    world it acts on. *)
Definition Handler : Type :=
  Context_ -> interface -> World -> outcome (value * option error) * World.

(** [server.ToolHandlerFunc] *)
Definition ToolHandlerFunc : Type :=
  Context_ -> mcp.CallToolRequest -> World ->
  outcome (mcp.CallToolResult * option error) * World.

(** [server.MCPServer]: the table behind [AddTool] and [ListTools]. *)
Record MCPServer : Type := mkMCPServer {
  tools : gmap string (mcp.Tool float64 * ToolHandlerFunc)
}.

Definition AddTool (s : MCPServer) (tool : mcp.Tool float64)
    (handler : ToolHandlerFunc) : MCPServer :=
  {| tools := <[ mcp.ToolName tool := (tool, handler) ]> (tools s) |}.

Definition ListTools (s : MCPServer) :
    gmap string (mcp.Tool float64 * ToolHandlerFunc) :=
  tools s.

Record Wrapper : Type := mkWrapper {
  server : MCPServer;
  validator_ : Validate
}.

Definition New (mcpServer : MCPServer) : Wrapper :=
  {| server := mcpServer;
     validator_ := {| Struct := validator_New_Struct |} |}.

Definition contains (slice : list string) (item : string) : bool :=
  existsb (fun s => String.eqb s item) slice.

Definition parseNumber (s : string) : mcp.any float64 :=
  match fmt.Sscanf_d s with
  | Some i => mcp.AInt i
  | None =>
      match Sscanf_f s with
      | Some f => mcp.AFloat f
      | None => mcp.AString s
      end
  end.

Definition inferType (t : reflect.rtype) : string :=
  match reflect.KindOf t with
  | reflect.String => "string"
  | reflect.Int | reflect.Int8 | reflect.Int16 | reflect.Int32 | reflect.Int64
  | reflect.Uint | reflect.Uint8 | reflect.Uint16 | reflect.Uint32
  | reflect.Uint64 => "integer"
  | reflect.Float32 | reflect.Float64 => "number"
  | reflect.Bool => "boolean"
  | reflect.Slice | reflect.Array => "array"
  | reflect.Map | reflect.Struct => "object"
  | _ => "string"
  end.

(** The state of the loop in [parseJSONSchemaTag]: the property being
    filled, the required list behind the pointer, the enum values. *)
Definition tagState : Type :=
  gmap string (mcp.any float64) * list string * list string.

(** One turn of [for _, part := range parts]. *)
Definition parseJSONSchemaTag_part (fieldName : string) (st : tagState)
    (part : string) : tagState :=
  let '(prop, required, enumValues) := st in
  let part := strings.TrimSpace part in
  if String.eqb part "required" then
    if negb (contains required fieldName)
    then (prop, required ++ [fieldName], enumValues)
    else st
  else if strings.HasPrefix part "description=" then
    (<[ "description" := mcp.AString (strings.TrimPrefix part "description=") ]> prop,
     required, enumValues)
  else if strings.HasPrefix part "enum=" then
    (prop, required, enumValues ++ [strings.TrimPrefix part "enum="])
  else if strings.HasPrefix part "minimum=" then
    (<[ "minimum" := parseNumber (strings.TrimPrefix part "minimum=") ]> prop,
     required, enumValues)
  else if strings.HasPrefix part "maximum=" then
    (<[ "maximum" := parseNumber (strings.TrimPrefix part "maximum=") ]> prop,
     required, enumValues)
  else if strings.HasPrefix part "minLength=" then
    (<[ "minLength" := parseNumber (strings.TrimPrefix part "minLength=") ]> prop,
     required, enumValues)
  else if strings.HasPrefix part "maxLength=" then
    (<[ "maxLength" := parseNumber (strings.TrimPrefix part "maxLength=") ]> prop,
     required, enumValues)
  else st.

(** [parseJSONSchemaTag(tag, prop, &required, fieldName)]: the property
    and the required list as the call leaves them. *)
Definition parseJSONSchemaTag (tag : string) (prop : gmap string (mcp.any float64))
    (required : list string) (fieldName : string) :
    gmap string (mcp.any float64) * list string :=
  let parts := strings.Split tag "," in
  let '(prop, required, enumValues) :=
    fold_left (parseJSONSchemaTag_part fieldName) parts (prop, required, []) in
  let prop :=
    if (0 <? length enumValues)%nat
    then <[ "enum" := mcp.AStrings enumValues ]> prop
    else prop in
  (prop, required).

(** The state of the loop in [buildSchema]: [properties] and [required]. *)
Definition schemaState : Type :=
  gmap string (gmap string (mcp.any float64)) * list string.

(** One turn of [for i := 0; i < t.NumField(); i++]. *)
Definition buildSchema_field (st : schemaState) (field : reflect.StructField) :
    schemaState :=
  let '(properties, required) := st in
  let jsonTag := reflect.Get (reflect.Tag field) "json" in
  if String.eqb jsonTag "" || String.eqb jsonTag "-" then st
  else
    let jsonName := hd EmptyString (strings.Split jsonTag ",") in
    let prop : gmap string (mcp.any float64) :=
      {[ "type" := mcp.AString (inferType (reflect.Typ field)) ]} in
    let jsonSchemaTag := reflect.Get (reflect.Tag field) "jsonschema" in
    let '(prop, required) :=
      if negb (String.eqb jsonSchemaTag "")
      then parseJSONSchemaTag jsonSchemaTag prop required jsonName
      else (prop, required) in
    let validateTag := reflect.Get (reflect.Tag field) "validate" in
    let required :=
      if negb (String.eqb validateTag "") then
        if strings.Contains validateTag "required" then
          if negb (contains required jsonName)
          then required ++ [jsonName]
          else required
        else required
      else required in
    (<[ jsonName := prop ]> properties, required).

(** [buildSchema(argsType)]: the schema pointer and the error.
    [argsType] is given by its dynamic type, [None] for a nil interface,
    on which [t.Kind()] dereferences a nil [reflect.Type]. *)
Definition buildSchema (argsType : option reflect.rtype) :
    outcome (option (mcp.ToolInputSchema float64) * option error) :=
  match argsType with
  | None => Panic "runtime error: invalid memory address or nil pointer dereference"
  | Some t =>
      let t :=
        if reflect.Kind_eqb (reflect.KindOf t) reflect.Ptr then reflect.Elem t else t in
      if negb (reflect.Kind_eqb (reflect.KindOf t) reflect.Struct) then
        Return (None,
                Some (errorString ("argsType must be a struct, got "
                                   +:+ reflect.KindString (reflect.KindOf t))))
      else
        let '(properties, required) :=
          fold_left buildSchema_field (reflect.Fields t) (∅, []) in
        let schema :=
          {| mcp.Type__ := "object";
             mcp.Properties := properties;
             mcp.Required := if (0 <? length required)%nat then required else [] |} in
        Return (Some schema, None)
  end.

(** [func (w *Wrapper) createHandler(argsType, handler)] *)
Definition createHandler (w : Wrapper) (argsType : option reflect.rtype)
    (handler : Handler) : ToolHandlerFunc :=
  fun ctx request world =>
    match argsType with
    | None => (Panic "reflect: New(nil)", world)
    | Some t =>
        let argsValue := reflect_New t in
        let '(argsValue, err) := BindArguments request argsValue in
        match err with
        | Some err =>
            (Return (mcp.NewToolResultError
                       ("failed to bind arguments: " +:+ Error err), None), world)
        | None =>
            match Struct (validator_ w) argsValue with
            | Panic msg => (Panic msg, world)
            | Return (Some err) =>
                let validationErr := formatValidationErrors err in
                (Return (mcp.NewToolResultError (Error validationErr), None), world)
            | Return None =>
                match handler ctx argsValue world with
                | (Panic msg, world') => (Panic msg, world')
                | (Return (result, Some err), world') =>
                    (Return (mcp.NewToolResultError
                               ("handler error: " +:+ Error err), None), world')
                | (Return (result, None), world') =>
                    match json.Marshal escape result with
                    | inr err =>
                        (Return (mcp.NewToolResultError
                                   ("failed to marshal result: " +:+ err), None),
                         world')
                    | inl resultJSON =>
                        match json.UnmarshalMap resultJSON with
                        | Some err =>
                            match result with
                            | VString resultStr =>
                                (Return (mcp.NewToolResultText resultStr, None), world')
                            | _ =>
                                (Return (mcp.NewToolResultError
                                           ("failed to format result: " +:+ err),
                                         None), world')
                            end
                        | None =>
                            (Return (mcp.NewToolResultText resultJSON, None), world')
                        end
                    end
                end
            end
        end
    end.

(** [func (w *Wrapper) Register(name, description, argsType, handler) error]:
    the wrapper as the call leaves it, and the error. *)
Definition Register (w : Wrapper) (name description : string)
    (argsType : option reflect.rtype) (handler : Handler) :
    outcome (Wrapper * option error) :=
  match buildSchema argsType with
  | Panic msg => Panic msg
  | Return (schema, Some err) =>
      Return (w, Some (wrapError ("failed to build schema for tool " +:+ name
                                  +:+ ": " +:+ Error err) err))
  | Return (schema, None) =>
      let tool : mcp.Tool float64 :=
        mcp.NewTool name description "JSON-encoded input matching the schema" in
      let tool :=
        match schema with
        | Some schema =>
            {| mcp.ToolName := mcp.ToolName tool;
               mcp.Description := mcp.Description tool;
               mcp.InputSchema := schema |}
        | None => tool
        end in
      Return ({| server := AddTool (server w) tool (createHandler w argsType handler);
                 validator_ := validator_ w |}, None)
  end.

(** *** cobra.go *)

(** [cobra.Command], by the fields the wrapper reads. *)
Record Command : Set := mkCommand {
  Use : string;
  Short : string;
  Long : string
}.

(** [func (w *Wrapper) RegisterCobra(cmd, argsType, handler) error] *)
Definition RegisterCobra (w : Wrapper) (cmd : Command)
    (argsType : option reflect.rtype) (handler : Handler) :
    outcome (Wrapper * option error) :=
  let name := Use cmd in
  if String.eqb name "" then
    Return (w, Some (errorString "cobra command must have a Use field"))
  else
    let description := Short cmd in
    let description := if String.eqb description "" then Long cmd else description in
    let description :=
      if String.eqb description ""
      then "Execute " +:+ name +:+ " command"
      else description in
    Register w name description argsType handler.

End Package.

(** *** cobra.go, continued: a command run as a tool *)

Section CobraCommand.
Context `{RT : Runtime}.

(** [cobra.Command] with the functions [RegisterCobraCommand] calls:
    [RunE] and [Run], each possibly nil, acting on the world.  Both are
    called with the command itself and an empty argument list. *)
Record CobraCommand : Type := mkCobraCommand {
  command : Command;
  RunE : option (World -> option error * World);
  Run : option (World -> World)
}.

(** The anonymous struct [{Success bool `json:"success"`; Message string
    `json:"message"`}] the handler answers with, as a value. *)
Definition output (Success : bool) (Message : string) : value :=
  VObject [("success", VBool Success); ("message", VString Message)].

(** The closure [handler] inside [RegisterCobraCommand]. *)
Definition RegisterCobraCommand_handler (cmd : CobraCommand) : Handler :=
  fun ctx args world =>
    let Message := "Command " +:+ Use (command cmd) +:+ " executed successfully" in
    match RunE cmd with
    | Some runE =>
        match runE world with
        | (Some err, world') => (Return (output false (Error err), Some err), world')
        | (None, world') => (Return (output true Message, None), world')
        end
    | None =>
        match Run cmd with
        | Some run => (Return (output true Message, None), run world)
        | None => (Return (output true Message, None), world)
        end
    end.

(** [func (w *Wrapper) RegisterCobraCommand(cmd, argsType) error] *)
Definition RegisterCobraCommand (w : Wrapper) (cmd : CobraCommand)
    (argsType : option reflect.rtype) : outcome (Wrapper * option error) :=
  RegisterCobra w (command cmd) argsType (RegisterCobraCommand_handler cmd).

End CobraCommand.

(** ** A runtime for running the package on examples
    Argument values are [json.Instance]s, decoded by [json.Unmarshal] and
    checked by [validator.Struct]; a [float64] is the decimal fraction it
    was read from; texts are escaped as they are (they hold nothing that
    needs escaping); no rule beyond the engine's own is registered. *)

Module example.

Record decimal : Set := mkDecimal {
  mantissa : Z;
  scale : nat
}.

(** The floating-point scan on plain decimal fractions
    (sign, digits, point, digits). *)
Definition Sscanf_f (s : string) : option decimal :=
  match fmt.SkipSpace (String.length s) s with
  | None | Some EmptyString => None
  | Some (String c r as s1) =>
      let '(neg, s2) :=
        if fmt.isSign c then (Ascii.eqb c "-", r) else (false, s1) in
      let int := fmt.accepted strconv.isDigit s2 in
      let rest := strings.drop (String.length int) s2 in
      let frac :=
        match rest with
        | String "." r' => fmt.accepted strconv.isDigit r'
        | _ => EmptyString
        end in
      match int +:+ frac, strconv.digits (int +:+ frac) 0 with
      | EmptyString, _ | _, None => None
      | _, Some m =>
          Some {| mantissa := if neg then - m else m; scale := String.length frac |}
      end
  end.

Definition noOthers : validator.others_t := fun _ => None.

(** [request.BindArguments(target)]: the arguments are marshalled and
    unmarshalled into the target. *)
Definition BindArguments (request : mcp.CallToolRequest) (target : json.Instance) :
    json.Instance * option error :=
  match json.Marshal (fun s => s) (mcp.Arguments request) with
  | inr e =>
      (target, Some (wrapError ("failed to marshal arguments: " +:+ e) (errorString e)))
  | inl _ =>
      let '(target, err) := json.Unmarshal (mcp.Arguments request) target in
      (target, option_map errorString err)
  end.

Definition Struct (s : json.Instance) : outcome (option error) :=
  match validator.Struct noOthers s with
  | Panic msg => Panic msg
  | Return validator.Valid => Return None
  | Return (validator.Invalid errs) => Return (Some (validator_ValidationErrors errs))
  | Return (validator.InvalidValidationError msg) => Return (Some (errorString msg))
  end.

(** The context is not inspected; the world is what the handlers of the
    examples record in. *)
Definition runtime (W : Type) : Runtime :=
  Build_Runtime decimal Sscanf_f (fun s => s) json.Instance json.New
                BindArguments Struct unit W.

Definition field (name : string) (t : reflect.rtype) (tag : reflect.StructTag) :
    reflect.StructField :=
  reflect.mkStructField name EmptyString t tag.

(** wrapper_test.go: [type TestArgs struct], without its Email field
    (the [email] rule is not among the engine's own). *)
Definition TestArgs : reflect.rtype :=
  reflect.TStruct "mcpwrapper.TestArgs"
    [ field "Name" reflect.TString
        [("json", "name"); ("jsonschema", "required,description=Test name");
         ("validate", "required,min=3")];
      field "Age" reflect.TInt
        [("json", "age");
         ("jsonschema", "required,minimum=0,maximum=120,description=Test age");
         ("validate", "required,gte=0,lte=120")];
      field "Category" reflect.TString
        [("json", "category");
         ("jsonschema", "enum=A,enum=B,enum=C,description=Category");
         ("validate", "required,oneof=A B C")] ].

(** Scenario A: a text field under the wire name [name] with the rules
    [required,min=3], an integer field under the wire name [age] with
    schema constraints only. *)
Definition ScenarioA (goName goAge : string) : reflect.rtype :=
  reflect.TStruct "main.ScenarioA"
    [ field goName reflect.TString
        [("json", "name"); ("validate", "required,min=3")];
      field goAge reflect.TInt
        [("json", "age"); ("jsonschema", "required,minimum=0,maximum=120")] ].

(** Scenario B: an age bounded above, a category from a fixed list. *)
Definition ScenarioB : reflect.rtype :=
  reflect.TStruct "main.ScenarioB"
    [ field "Age" reflect.TInt
        [("json", "age"); ("validate", "gte=0,lte=120")];
      field "Category" reflect.TString
        [("json", "category"); ("validate", "oneof=admin user guest")] ].

(** A price with a fractional lower bound. *)
Definition Offer : reflect.rtype :=
  reflect.TStruct "main.Offer"
    [ field "Price" reflect.TFloat64
        [("json", "price"); ("jsonschema", "minimum=3.5")] ].

Definition request (name : string) (arguments : list (string * value)) :
    mcp.CallToolRequest :=
  {| mcp.Name := name; mcp.Arguments := VObject arguments |}.

(** A handler that records each call in the world and answers with a
    fixed result. *)
Definition recording (answer : value * option error) : @Handler (runtime nat) :=
  fun _ _ calls => (Return answer, S calls).

Definition emptyServer {W} : @MCPServer (runtime W) := {| tools := ∅ |}.

(** wrapper_test.go, TestRegisterCobraNoUse: a command without [Use]. *)
Definition noUse : Command :=
  {| Use := ""; Short := "Missing Use field"; Long := "" |}.

(** A command with an identifier and no description at all. *)
Definition deploy : Command :=
  {| Use := "deploy"; Short := ""; Long := "" |}.

Definition nameOfProfile : reflect.StructField :=
  field "Name" reflect.TString
    [("json", "name,omitempty");
     ("jsonschema", "required, required ,description=Display name");
     ("validate", "required,min=1")].

Definition partnerOfProfile : reflect.StructField :=
  field "Partner" reflect.TString
    [("json", "partner"); ("validate", "required_with=Name")].

Definition secretOfProfile : reflect.StructField :=
  field "Secret" reflect.TString [("json", "-"); ("jsonschema", "required")].

Definition tokenOfProfile : reflect.StructField :=
  field "Token" reflect.TString [("validate", "required")].

(** A type whose annotations mention [required] in every way: twice in
    one jsonschema annotation and again in the validate annotation;
    inside another rule's name; on a field tagged "-"; on a field
    without a json annotation. *)
Definition Profile : reflect.rtype :=
  reflect.TStruct "main.Profile"
    [ nameOfProfile; partnerOfProfile; secretOfProfile; tokenOfProfile ].

(** A type whose only field is tagged "-" and marked required in its
    jsonschema annotation. *)
Definition Vault : reflect.rtype := reflect.TStruct "main.Vault" [ secretOfProfile ].

(** A type whose only field has no json annotation and is marked required
    in its validate annotation. *)
Definition Session : reflect.rtype := reflect.TStruct "main.Session" [ tokenOfProfile ].

(** A field whose json annotation gives options and no name. *)
Definition nicknameOfContact : reflect.StructField :=
  field "Nickname" reflect.TString
    [("json", ",omitempty"); ("jsonschema", "required"); ("validate", "required")].

(** A type whose only field is annotated [json:",omitempty"] and marked
    required in both annotations. *)
Definition Contact : reflect.rtype :=
  reflect.TStruct "main.Contact" [ nicknameOfContact ].

(** Decoding the arguments into a fresh value of type [t] and validating
    it, as the first two stages of an invocation do: the decoding
    error, or the validation report. *)
Definition decodeAndValidate (t : reflect.rtype) (arguments : list (string * value)) :
    error + outcome (option error) :=
  let '(target, err) := BindArguments (request "tool" arguments) (json.New t) in
  match err with
  | Some err => inl err
  | None =>
      inr match Struct target with
          | Panic msg => Panic msg
          | Return None => Return None
          | Return (Some err) => Return (Some (formatValidationErrors err))
          end
  end.

End example.

(** ** What a field's annotations say *)

(** The field is not skipped by the schema deriver: it has a json
    annotation other than "-". *)
Definition named (f : reflect.StructField) : bool :=
  negb (String.eqb (reflect.Get (reflect.Tag f) "json") "")
  && negb (String.eqb (reflect.Get (reflect.Tag f) "json") "-").

(** The name the schema deriver takes from the json annotation, its
    [jsonName]: the text up to the first comma.  It is empty for an
    annotation that gives options only, such as [json:",omitempty"]. *)
Definition jsonName (f : reflect.StructField) : string :=
  hd EmptyString (strings.Split (reflect.Get (reflect.Tag f) "json") ",").

(** The wire name of a field: the object key encoding/json writes and
    reads the field under; none for a field encoding/json ignores.  It is
    the Go name of the field where the json annotation gives no name. *)
Definition wireName (f : reflect.StructField) : option string := json.key f.

(** A character encoding/json admits in the name of a json annotation:
    an ASCII letter or digit, or one of the punctuation marks it lists
    (quote, backslash, apostrophe and comma are not among them). *)
Definition tagChar (c : ascii) : bool :=
  let b := N_of_ascii c in
  ((65 <=? b) && (b <=? 90))%N || ((97 <=? b) && (b <=? 122))%N
  || ((48 <=? b) && (b <=? 57))%N
  || existsb (Ascii.eqb c) (list_ascii_of_string "!#$%&()*+-./:;<=>?@[]^_{|}~ ").

(** The json annotation spells a name for the field: the text before its
    first comma is not empty and is made of such characters, so that
    encoding/json takes it, as it stands, for the name of the field. *)
Definition spelled (f : reflect.StructField) : bool :=
  negb (String.eqb (jsonName f) "")
  && forallb tagChar (list_ascii_of_string (jsonName f)).

(** Some token of the jsonschema annotation is, once trimmed, the bare
    word [required]. *)
Definition requiredBySchema (f : reflect.StructField) : bool :=
  existsb (fun part => String.eqb (strings.TrimSpace part) "required")
          (strings.Split (reflect.Get (reflect.Tag f) "jsonschema") ",").

(** The validate annotation contains the text [required] somewhere. *)
Definition requiredByValidation (f : reflect.StructField) : bool :=
  strings.Contains (reflect.Get (reflect.Tag f) "validate") "required".

(** A struct type, or a pointer to one. *)
Definition recordShaped (t : reflect.rtype) : bool :=
  match t with
  | reflect.TStruct _ _ | reflect.TPtr (reflect.TStruct _ _) => true
  | _ => false
  end.

(** The description [RegisterCobra] settles on. *)
Inductive describedAs (cmd : Command) : string -> Prop :=
| byShort : Short cmd <> "" -> describedAs cmd (Short cmd)
| byLong : Short cmd = "" -> Long cmd <> "" -> describedAs cmd (Long cmd)
| byDefault : Short cmd = "" -> Long cmd = "" ->
              describedAs cmd ("Execute " +:+ Use cmd +:+ " command").

(** How the required list may change during a derivation: nothing is
    lost, and no duplicate comes in. *)
Definition extends (r r' : list string) : Prop :=
  (List.NoDup r -> List.NoDup r') /\ incl r r'.

(** The required list inside the loop state of [parseJSONSchemaTag]. *)
Definition requiredOf `{RT : Runtime} (st : tagState) : list string := snd (fst st).

(** The text of an Invocation Result. *)
Definition textOf (r : mcp.CallToolResult) : list string :=
  map mcp.Text (mcp.Content r).

(** ** The example program (examples/simple/main.go) *)

Module simple.

(** The fields of [type CalculateArgs struct]. *)
Definition A : reflect.StructField :=
  example.field "A" reflect.TInt
    [("json", "a"); ("jsonschema", "required,description=First number");
     ("validate", "required")].

Definition B : reflect.StructField :=
  example.field "B" reflect.TInt
    [("json", "b"); ("jsonschema", "required,description=Second number");
     ("validate", "required")].

Definition Operation : reflect.StructField :=
  example.field "Operation" reflect.TString
    [("json", "operation");
     ("jsonschema",
      "required,enum=add,enum=subtract,enum=multiply,enum=divide,description=Operation to perform");
     ("validate", "required,oneof=add subtract multiply divide")].

(** [type CalculateArgs struct] *)
Definition CalculateArgs : reflect.rtype :=
  reflect.TStruct "main.CalculateArgs" [ A; B; Operation ].

End simple.

(** ** What the derivation is measured against *)

(** The field is not skipped and is marked required by either
    annotation. *)
Definition marked (f : reflect.StructField) : bool :=
  named f && (requiredBySchema f || requiredByValidation f).

(** [if !contains(required, name) { required = append(required, name) }] *)
Definition addOnce (required : list string) (name : string) : list string :=
  if negb (contains required name) then required ++ [name] else required.

(** The texts of [l] in the order of their first occurrence. *)
Fixpoint firstOccurrences (l : list string) : list string :=
  match l with
  | [] => []
  | x :: l' =>
      x :: List.filter (fun y => negb (String.eqb y x)) (firstOccurrences l')
  end.

(** The tokens of a jsonschema annotation: the comma-separated parts,
    trimmed. *)
Definition tokens (tag : string) : list string :=
  map strings.TrimSpace (strings.Split tag ",").

(** The values of the tokens [key=value] of an annotation, in order. *)
Definition valuesOf (key tag : string) : list string :=
  map (fun p => strings.TrimPrefix p (key +:+ "="))
      (List.filter (fun p => strings.HasPrefix p (key +:+ "=")) (tokens tag)).

(** The property a field's own annotations describe: its type, and what
    [parseJSONSchemaTag] makes of its jsonschema annotation. *)
Definition propertyOf `{RT : Runtime} (f : reflect.StructField) :
    gmap string (mcp.any float64) :=
  let prop : gmap string (mcp.any float64) :=
    {[ "type" := mcp.AString (inferType (reflect.Typ f)) ]} in
  let tag := reflect.Get (reflect.Tag f) "jsonschema" in
  if negb (String.eqb tag "")
  then fst (parseJSONSchemaTag tag prop [] (jsonName f))
  else prop.

(** The value is one a decoded field of type [t] can hold: a text in a
    text field, an integer in an integer field, a boolean in a boolean
    field. *)
Definition holds (t : reflect.rtype) (v : value) : bool :=
  match reflect.KindOf t, v with
  | reflect.String, VString _ => true
  | reflect.String, _ => false
  | reflect.Bool, VBool _ => true
  | reflect.Bool, _ => false
  | (reflect.Int | reflect.Int8 | reflect.Int16 | reflect.Int32 | reflect.Int64
     | reflect.Uint | reflect.Uint8 | reflect.Uint16 | reflect.Uint32
     | reflect.Uint64 | reflect.Uintptr), VInt _ => true
  | (reflect.Int | reflect.Int8 | reflect.Int16 | reflect.Int32 | reflect.Int64
     | reflect.Uint | reflect.Uint8 | reflect.Uint16 | reflect.Uint32
     | reflect.Uint64 | reflect.Uintptr), _ => false
  | _, _ => true
  end.

(** Every field of the decoded value holds a value of its type. *)
Definition wellTyped (fields : list reflect.StructField) (vals : list value) : Prop :=
  Forall2 (fun f v => holds (reflect.Typ f) v = true) fields vals.

(** The type names of a JSON schema. *)
Definition jsonTypes : list string :=
  ["string"; "integer"; "number"; "boolean"; "array"; "object"].

(** The text is made of decimal digits. *)
Fixpoint allDigits (s : string) : bool :=
  match s with
  | EmptyString => true
  | String c s' => strconv.isDigit c && allDigits s'
  end.

(** The text starts with a decimal digit. *)
Definition startsWithDigit (s : string) : bool :=
  match s with
  | String c _ => strconv.isDigit c
  | EmptyString => false
  end.

(** * Properties *)

(** ** Registration *)

Section Registration.
Context `{RT : Runtime}.

Lemma recordShaped_kind (t : reflect.rtype) :
  recordShaped t =
  reflect.Kind_eqb
    (reflect.KindOf (if reflect.Kind_eqb (reflect.KindOf t) reflect.Ptr
                     then reflect.Elem t else t))
    reflect.Struct.
Proof.
  destruct t as [ | | | | | | | | | | | | | | | | | | | | | | | e | | ];
    try reflexivity.
  destruct e; reflexivity.
Qed.

Lemma Required_if (required : list string) :
  (if (0 <? length required)%nat then required else []) = required.
Proof. destruct required; reflexivity. Qed.

(** The schema of a record-shaped type: the fold of the loop body over
    the fields of the struct. *)
Lemma buildSchema_record (t : reflect.rtype) :
  recordShaped t = true ->
  buildSchema (Some t) =
  Return (Some {| mcp.Type__ := "object";
                  mcp.Properties :=
                    fst (fold_left buildSchema_field
                           (reflect.Fields (reflect.Indirect t)) (∅, []));
                  mcp.Required :=
                    snd (fold_left buildSchema_field
                           (reflect.Fields (reflect.Indirect t)) (∅, [])) |},
          None).
Proof.
  intros Hrec. unfold buildSchema.
  rewrite <- recordShaped_kind, Hrec. cbn [negb].
  assert (Het : (if reflect.Kind_eqb (reflect.KindOf t) reflect.Ptr
                 then reflect.Elem t else t) = reflect.Indirect t)
    by (destruct t; reflexivity).
  rewrite Het.
  destruct (fold_left buildSchema_field _ _) as [properties required].
  cbn [fst snd]. rewrite Required_if. reflexivity.
Qed.

Lemma buildSchema_other (t : reflect.rtype) :
  recordShaped t = false ->
  buildSchema (Some t) =
  Return (None,
          Some (errorString
                  ("argsType must be a struct, got "
                   +:+ reflect.KindString (reflect.KindOf (reflect.Indirect t))))).
Proof.
  intros Hrec. unfold buildSchema.
  rewrite <- recordShaped_kind, Hrec. cbn [negb].
  assert (Het : (if reflect.Kind_eqb (reflect.KindOf t) reflect.Ptr
                 then reflect.Elem t else t) = reflect.Indirect t)
    by (destruct t; reflexivity).
  rewrite Het. reflexivity.
Qed.

(** A registration that succeeds lists the tool under its name, bound to
    the pipeline [createHandler] builds. *)
Lemma Register_lists_createHandler (w w' : Wrapper) (name description : string)
    (argsType : option reflect.rtype) (handler : Handler) :
  Register w name description argsType handler = Return (w', None) ->
  exists tool,
    ListTools (server w') !! name
    = Some (tool, createHandler w argsType handler)
    /\ mcp.ToolName tool = name /\ mcp.Description tool = description.
Proof.
  unfold Register.
  destruct (buildSchema argsType) as [[schema [err | ]] | msg]; try discriminate.
  intros H. injection H as <-.
  destruct schema as [schema | ]; eexists; (split; [ | split ]);
    try (unfold ListTools, AddTool; cbn; apply lookup_insert_eq); reflexivity.
Qed.

(** C2: for every struct type and every pointer to a struct type,
    [buildSchema] returns a schema and no error, and [Register] returns
    a nil error with the tool added to the server's table; for every
    other argument type [buildSchema] returns the error "argsType must
    be a struct, got <kind>" (the kind taken after dereferencing one
    pointer), and [Register] returns it wrapped, leaving the wrapper and
    its server as they were. *)
Theorem C2_record_types_register_others_fail
    (w : Wrapper) (name description : string) (t : reflect.rtype) (handler : Handler) :
  if recordShaped t then
    exists schema tool,
      buildSchema (Some t) = Return (Some schema, None)
      /\ Register w name description (Some t) handler
         = Return ({| server := AddTool (server w) tool
                                  (createHandler w (Some t) handler);
                      validator_ := validator_ w |}, None)
      /\ mcp.ToolName tool = name
      /\ mcp.InputSchema tool = schema
  else
    let err :=
      errorString ("argsType must be a struct, got "
                   +:+ reflect.KindString (reflect.KindOf (reflect.Indirect t))) in
    buildSchema (Some t) = Return (None, Some err)
    /\ Register w name description (Some t) handler
       = Return (w, Some (wrapError ("failed to build schema for tool " +:+ name
                                     +:+ ": " +:+ Error err) err)).
Proof.
  destruct (recordShaped t) eqn:Hrec.
  - do 2 eexists. split; [ apply (buildSchema_record t Hrec) | ].
    unfold Register. rewrite (buildSchema_record t Hrec).
    split; [ reflexivity | split; reflexivity ].
  - cbn zeta. split; [ apply (buildSchema_other t Hrec) | ].
    unfold Register. rewrite (buildSchema_other t Hrec). reflexivity.
Qed.

(** The README's schema error: a string is no argument type. *)
Example Register_string_fails (w : Wrapper) (handler : Handler) :
  Register w "xyz" "a tool" (Some reflect.TString) handler
  = Return (w,
            Some (wrapError
                    "failed to build schema for tool xyz: argsType must be a struct, got string"
                    (errorString "argsType must be a struct, got string"))).
Proof. reflexivity. Qed.

(** A pointer to a pointer to a struct is a pointer after one dereference. *)
Example Register_double_pointer_fails (w : Wrapper) (handler : Handler) :
  Register w "xyz" "a tool"
    (Some (reflect.TPtr (reflect.TPtr example.TestArgs))) handler
  = Return (w,
            Some (wrapError
                    "failed to build schema for tool xyz: argsType must be a struct, got ptr"
                    (errorString "argsType must be a struct, got ptr"))).
Proof. reflexivity. Qed.

(** C9 (amended): a command with an empty [Use] makes [RegisterCobra]
    return an error and the wrapper unchanged, so every later listing is
    the listing before the call; otherwise the registration is that of
    [Register] under the name [Use] with the short description, else the
    long one, else the text "Execute <name> command", and when it
    succeeds the tool is listed with that description. *)
Theorem C9_cobra_identifier_and_description
    (w : Wrapper) (cmd : Command) (argsType : option reflect.rtype) (handler : Handler) :
  (Use cmd = "" ->
   RegisterCobra w cmd argsType handler
   = Return (w, Some (errorString "cobra command must have a Use field")))
  /\ (Use cmd <> "" ->
      exists description,
        describedAs cmd description
        /\ RegisterCobra w cmd argsType handler
           = Register w (Use cmd) description argsType handler
        /\ forall w',
             RegisterCobra w cmd argsType handler = Return (w', None) ->
             exists tool,
               ListTools (server w') !! Use cmd
               = Some (tool, createHandler w argsType handler)
               /\ mcp.Description tool = description).
Proof.
  assert (Hlisted : forall description w',
             Register w (Use cmd) description argsType handler = Return (w', None) ->
             exists tool,
               ListTools (server w') !! Use cmd
               = Some (tool, createHandler w argsType handler)
               /\ mcp.Description tool = description).
  { intros description w' Hreg.
    destruct (Register_lists_createHandler _ _ _ _ _ _ Hreg)
      as (tool & Hlookup & _ & Hdesc).
    exists tool. split; assumption. }
  unfold RegisterCobra. split.
  - intros ->. reflexivity.
  - intros Hname. apply String.eqb_neq in Hname. rewrite Hname.
    destruct (String.eqb (Short cmd) "") eqn:Hshort.
    + apply String.eqb_eq in Hshort.
      destruct (String.eqb (Long cmd) "") eqn:Hlong.
      * apply String.eqb_eq in Hlong.
        eexists. split; [ apply byDefault; assumption | ].
        split; [ reflexivity | apply Hlisted ].
      * apply String.eqb_neq in Hlong.
        eexists. split; [ apply byLong; assumption | ].
        split; [ reflexivity | apply Hlisted ].
    + rewrite Hshort. apply String.eqb_neq in Hshort.
      eexists. split; [ apply byShort; assumption | ].
      split; [ reflexivity | apply Hlisted ].
Qed.

End Registration.

(** ** The invocation pipeline *)

Section Pipeline.
Context `{RT : Runtime}.
Variables (w : Wrapper) (t : reflect.rtype) (handler : Handler).
Variables (ctx : Context_) (request : mcp.CallToolRequest) (world : World).

(** C1: when the arguments fail to decode, or decode into a value the
    validator rejects, the invoke function returns an error payload with
    a nil transport error and leaves the world as it found it, whatever
    the handler is; a handler that records its calls has recorded
    none. *)
Theorem C1_failed_decode_or_validation_never_reaches_handler :
  (exists target err,
      BindArguments request (reflect_New t) = (target, Some err))
  \/ (exists target err,
        BindArguments request (reflect_New t) = (target, None)
        /\ Struct (validator_ w) target = Return (Some err)) ->
  exists result,
    createHandler w (Some t) handler ctx request world
    = (Return (result, None), world)
    /\ mcp.IsError result = true.
Proof.
  unfold createHandler.
  intros [(target & err & Hbind) | (target & err & Hbind & Hval)];
    rewrite Hbind; [ | rewrite Hval ];
    eexists; (split; [ reflexivity | reflexivity ]).
Qed.

(** C5: when the handler is reached and returns an error, the invoke
    function returns an Invocation Result flagged as an error whose text
    is "handler error: " followed by the error's message, with a nil
    transport error. *)
Theorem C5_handler_error_is_reported_with_prefix
    (target : interface) (result : value) (err : error) (world' : World) :
  BindArguments request (reflect_New t) = (target, None) ->
  Struct (validator_ w) target = Return None ->
  handler ctx target world = (Return (result, Some err), world') ->
  exists r,
    createHandler w (Some t) handler ctx request world = (Return (r, None), world')
    /\ mcp.IsError r = true
    /\ textOf r = ["handler error: " +:+ Error err].
Proof.
  intros Hbind Hval Hcall. unfold createHandler.
  rewrite Hbind, Hval, Hcall.
  eexists. split; [ reflexivity | split; reflexivity ].
Qed.

(** C10: when the handler is reached and returns a nil result with a nil
    error, the invocation succeeds with the text payload "null". *)
Theorem C10_nil_result_encodes_as_null (target : interface) (world' : World) :
  BindArguments request (reflect_New t) = (target, None) ->
  Struct (validator_ w) target = Return None ->
  handler ctx target world = (Return (VNil, None), world') ->
  createHandler w (Some t) handler ctx request world
  = (Return (mcp.NewToolResultText "null", None), world').
Proof.
  intros Hbind Hval Hcall. unfold createHandler.
  rewrite Hbind, Hval, Hcall. reflexivity.
Qed.

End Pipeline.

(** ** The required list *)

Section RequiredList.
Context `{RT : Runtime}.

Lemma extends_refl (r : list string) : extends r r.
Proof. split; [ tauto | apply incl_refl ]. Qed.

Lemma extends_trans (r1 r2 r3 : list string) :
  extends r1 r2 -> extends r2 r3 -> extends r1 r3.
Proof.
  intros [Hd1 Hi1] [Hd2 Hi2]. split; [ tauto | ].
  eapply incl_tran; eassumption.
Qed.

Lemma contains_In (slice : list string) (item : string) :
  contains slice item = true <-> In item slice.
Proof.
  unfold contains. rewrite existsb_exists. split.
  - intros (s & Hin & Heq). apply String.eqb_eq in Heq. subst s. exact Hin.
  - intros Hin. exists item. split; [ exact Hin | apply String.eqb_refl ].
Qed.

(** [if !contains(required, name) { required = append(required, name) }] *)
Lemma append_if_absent (required : list string) (name : string) :
  let required' :=
    if negb (contains required name) then required ++ [name] else required in
  extends required required' /\ In name required'.
Proof.
  cbn zeta. destruct (contains required name) eqn:Hc; cbn [negb].
  - split; [ apply extends_refl | apply contains_In; exact Hc ].
  - assert (Hnot : ~ In name required).
    { intros Hin. apply contains_In in Hin. congruence. }
    split; [ split | ].
    + intros Hnd. apply List.NoDup_app.
      * exact Hnd.
      * constructor; [ intros [] | constructor ].
      * intros x Hx [<- | []]. exact (Hnot Hx).
    + apply incl_appl, incl_refl.
    + apply in_or_app. right. left. reflexivity.
Qed.

Lemma parseJSONSchemaTag_part_required (fieldName : string) (st : tagState)
    (part : string) :
  extends (requiredOf st) (requiredOf (parseJSONSchemaTag_part fieldName st part))
  /\ (String.eqb (strings.TrimSpace part) "required" = true ->
      In fieldName (requiredOf (parseJSONSchemaTag_part fieldName st part))).
Proof.
  destruct st as [[prop required] enumValues].
  unfold parseJSONSchemaTag_part, requiredOf.
  destruct (String.eqb (strings.TrimSpace part) "required") eqn:Hreq.
  - pose proof (append_if_absent required fieldName) as [Hext Hin].
    cbn zeta in Hext, Hin.
    destruct (negb (contains required fieldName)); cbn [fst snd] in *;
      split; auto.
  - split; [ | discriminate ].
    repeat match goal with
           | |- context [if ?b then _ else _] => destruct b
           end; cbn [fst snd]; apply extends_refl.
Qed.

Lemma parseJSONSchemaTag_parts_required (fieldName : string) (parts : list string) :
  forall st : tagState,
    extends (requiredOf st)
            (requiredOf (fold_left (parseJSONSchemaTag_part fieldName) parts st))
    /\ (existsb (fun part => String.eqb (strings.TrimSpace part) "required") parts
        = true ->
        In fieldName
           (requiredOf (fold_left (parseJSONSchemaTag_part fieldName) parts st))).
Proof.
  induction parts as [ | part parts IH]; intros st; cbn [fold_left existsb].
  - split; [ apply extends_refl | discriminate ].
  - destruct (parseJSONSchemaTag_part_required fieldName st part) as [Hext Hin].
    destruct (IH (parseJSONSchemaTag_part fieldName st part)) as [Hext' Hin'].
    split; [ eapply extends_trans; eassumption | ].
    intros Hex. apply orb_true_iff in Hex as [Hhere | Hlater].
    + apply Hext'. apply Hin. exact Hhere.
    + apply Hin'. exact Hlater.
Qed.

Lemma parseJSONSchemaTag_required (tag : string)
    (prop : gmap string (mcp.any float64)) (required : list string)
    (fieldName : string) :
  extends required (snd (parseJSONSchemaTag tag prop required fieldName))
  /\ (existsb (fun part => String.eqb (strings.TrimSpace part) "required")
              (strings.Split tag ",") = true ->
      In fieldName (snd (parseJSONSchemaTag tag prop required fieldName))).
Proof.
  unfold parseJSONSchemaTag.
  pose proof (parseJSONSchemaTag_parts_required fieldName (strings.Split tag ",")
                (prop, required, [])) as H.
  destruct (fold_left _ _ _) as [[prop' required'] enumValues].
  exact H.
Qed.

Lemma buildSchema_field_required (st : schemaState) (f : reflect.StructField) :
  extends (snd st) (snd (buildSchema_field st f))
  /\ (named f = true ->
      (requiredBySchema f = true \/ requiredByValidation f = true) ->
      In (jsonName f) (snd (buildSchema_field st f))).
Proof.
  destruct st as [properties required].
  unfold buildSchema_field, named, requiredBySchema, requiredByValidation, jsonName.
  set (jsonTag := reflect.Get (reflect.Tag f) "json").
  set (schemaTag := reflect.Get (reflect.Tag f) "jsonschema").
  set (validateTag := reflect.Get (reflect.Tag f) "validate").
  set (jsonName := hd EmptyString (strings.Split jsonTag ",")).
  destruct (String.eqb jsonTag "") eqn:He; cbn [orb negb andb].
  { split; [ apply extends_refl | discriminate ]. }
  destruct (String.eqb jsonTag "-") eqn:Hd; cbn [negb].
  { split; [ apply extends_refl | discriminate ]. }
  pose proof (parseJSONSchemaTag_required schemaTag
                {[ "type" := mcp.AString (inferType (reflect.Typ f)) ]}
                required jsonName) as [Hext Hin].
  assert (Hempty : String.eqb schemaTag "" = true ->
                   existsb (fun part => String.eqb (strings.TrimSpace part) "required")
                           (strings.Split schemaTag ",") = false).
  { intros E. apply String.eqb_eq in E. rewrite E. reflexivity. }
  destruct (String.eqb schemaTag "") eqn:Hs; cbn [negb].
  - (* no jsonschema annotation *)
    rewrite (Hempty eq_refl). clear Hext Hin.
    destruct (String.eqb validateTag "") eqn:Hv; cbn [negb snd].
    + apply String.eqb_eq in Hv. rewrite Hv.
      split; [ apply extends_refl | ]. intros _ [H | H]; discriminate.
    + destruct (strings.Contains validateTag "required") eqn:Hc.
      * pose proof (append_if_absent required jsonName) as [Hext Hin].
        split; [ exact Hext | intros _ _; exact Hin ].
      * split; [ apply extends_refl | ]. intros _ [H | H]; discriminate.
  - destruct (parseJSONSchemaTag schemaTag _ required jsonName)
      as [prop' required'] eqn:Hp.
    cbn [snd] in Hext, Hin |- *.
    destruct (String.eqb validateTag "") eqn:Hv; cbn [negb].
    + apply String.eqb_eq in Hv. rewrite Hv.
      split; [ exact Hext | ].
      intros _ [H | H]; [ exact (Hin H) | discriminate ].
    + destruct (strings.Contains validateTag "required") eqn:Hc.
      * pose proof (append_if_absent required' jsonName) as [Hext' Hin'].
        split; [ eapply extends_trans; eassumption | intros _ _; exact Hin' ].
      * split; [ exact Hext | ].
        intros _ [H | H]; [ exact (Hin H) | discriminate ].
Qed.

Lemma buildSchema_fields_required (fields : list reflect.StructField) :
  forall st : schemaState,
    extends (snd st) (snd (fold_left buildSchema_field fields st))
    /\ (forall f,
           In f fields -> named f = true ->
           (requiredBySchema f = true \/ requiredByValidation f = true) ->
           In (jsonName f) (snd (fold_left buildSchema_field fields st))).
Proof.
  induction fields as [ | f0 fields IH]; intros st; cbn [fold_left].
  - split; [ apply extends_refl | intros f [] ].
  - destruct (buildSchema_field_required st f0) as [Hext Hin].
    destruct (IH (buildSchema_field st f0)) as [Hext' Hin'].
    split; [ eapply extends_trans; eassumption | ].
    intros f [<- | Hlater] Hnamed Hmarked.
    + apply Hext'. apply Hin; assumption.
    + apply Hin'; assumption.
Qed.

(** The required list of a derived schema: no name twice, and the name
    the json annotation gives to every field that is not skipped and is
    marked required. *)
Lemma buildSchema_required (t : reflect.rtype) (schema : mcp.ToolInputSchema float64) :
  buildSchema (Some t) = Return (Some schema, None) ->
  List.NoDup (mcp.Required schema)
  /\ (forall f,
         In f (reflect.Fields (reflect.Indirect t)) -> named f = true ->
         (requiredBySchema f = true \/ requiredByValidation f = true) ->
         In (jsonName f) (mcp.Required schema)).
Proof.
  intros Hbuild.
  destruct (recordShaped t) eqn:Hrec.
  - rewrite (buildSchema_record t Hrec) in Hbuild.
    injection Hbuild as <-. cbn [mcp.Required].
    destruct (buildSchema_fields_required
                (reflect.Fields (reflect.Indirect t)) (∅, [])) as [[Hnd _] Hin].
    split; [ apply Hnd; constructor | exact Hin ].
  - rewrite (buildSchema_other t Hrec) in Hbuild. discriminate.
Qed.

(** Where the json annotation spells a name, that name is the wire name:
    the key the decoder reads the field from. *)
Lemma spelled_wireName (f : reflect.StructField) (name : string) :
  spelled f = true -> wireName f = Some name -> name = jsonName f.
Proof.
  unfold spelled, wireName, json.key. fold (jsonName f).
  intros Hs Hw. apply andb_prop in Hs as [Hne _].
  destruct (negb (String.eqb (reflect.PkgPath f) "")); [ discriminate | ].
  destruct (String.eqb (reflect.Get (reflect.Tag f) "json") "-"); [ discriminate | ].
  destruct (String.eqb (jsonName f) ""); [ discriminate | ].
  injection Hw as <-. reflexivity.
Qed.

(** C3 (amended): for every field of a record argument type that is not
    skipped (its json annotation is neither empty nor "-"), whose json
    annotation spells a name, and that is marked required, by a bare
    [required] token of its jsonschema annotation, by the text [required]
    inside its validate annotation, or by both, any number of times, the
    wire name of the field occurs exactly once in the required list of the
    derived schema. *)
Theorem C3_required_name_listed_exactly_once
    (t : reflect.rtype) (schema : mcp.ToolInputSchema float64)
    (f : reflect.StructField) (name : string) :
  buildSchema (Some t) = Return (Some schema, None) ->
  In f (reflect.Fields (reflect.Indirect t)) ->
  named f = true ->
  spelled f = true ->
  wireName f = Some name ->
  requiredBySchema f = true \/ requiredByValidation f = true ->
  count_occ string_dec (mcp.Required schema) name = 1%nat.
Proof.
  intros Hbuild Hf Hnamed Hspelled Hwire Hmarked.
  rewrite (spelled_wireName f name Hspelled Hwire).
  destruct (buildSchema_required t schema Hbuild) as [Hnd Hin].
  apply (proj1 (List.NoDup_count_occ' string_dec (mcp.Required schema)) Hnd).
  apply Hin; assumption.
Qed.

(** C4 (amended): for every field that is not skipped, whose json
    annotation spells a name, and whose validate annotation contains the
    text [required] anywhere, inside whatever token, the wire name of the
    field is in the required list of the derived schema: the annotation
    is searched as one text, not rule by rule. *)
Theorem C4_required_substring_of_validate_annotation
    (t : reflect.rtype) (schema : mcp.ToolInputSchema float64)
    (f : reflect.StructField) (name : string) :
  buildSchema (Some t) = Return (Some schema, None) ->
  In f (reflect.Fields (reflect.Indirect t)) ->
  named f = true ->
  spelled f = true ->
  wireName f = Some name ->
  strings.Contains (reflect.Get (reflect.Tag f) "validate") "required" = true ->
  In name (mcp.Required schema).
Proof.
  intros Hbuild Hf Hnamed Hspelled Hwire Hsub.
  rewrite (spelled_wireName f name Hspelled Hwire).
  destruct (buildSchema_required t schema Hbuild) as [_ Hin].
  apply Hin; [ assumption | assumption | right; exact Hsub ].
Qed.

End RequiredList.

(** ** The validation report *)

Section Report.

Lemma fold_left_append {A B} (f : A -> B) (l : list A) :
  forall acc, fold_left (fun acc x => acc ++ [f x]) l acc = acc ++ map f l.
Proof.
  induction l as [ | x l IH]; intros acc; cbn [fold_left map].
  - symmetry. apply app_nil_r.
  - rewrite IH, <- app_assoc. reflexivity.
Qed.

(** One entry per field error, in the order the validator gave them. *)
Lemma formatValidationErrors_each (errs : list validator.FieldError) :
  formatValidationErrors (validator_ValidationErrors errs)
  = ValidationErrors
      (map (fun fieldErr => {| Field := validator.Field fieldErr;
                               Message := formatFieldError fieldErr |}) errs).
Proof.
  unfold formatValidationErrors.
  rewrite (fold_left_append
             (fun fieldErr => {| Field := validator.Field fieldErr;
                                 Message := formatFieldError fieldErr |})).
  reflexivity.
Qed.

Lemma ValidationErrors_Error_joined (es : list ValidationError) :
  ValidationErrors_Error es
  = "validation failed: "
    +:+ String.concat "; " (map (fun e => Field e +:+ ": " +:+ Message e) es).
Proof.
  unfold ValidationErrors_Error, strings.Join.
  rewrite (fold_left_append ValidationError_Error). reflexivity.
Qed.

Variable others : validator.others_t.

Lemma field_reports_name (ns name : string) (v : value) (e : validator.FieldError) :
  forall rs,
    validator.field others ns name rs v = Return (Some e) ->
    validator.Field e = name.
Proof.
  induction rs as [ | [tag param] rs IH]; cbn [validator.field].
  - discriminate.
  - destruct (String.eqb tag "omitempty").
    + destruct (validator.hasValue v); [ exact IH | discriminate ].
    + destruct (validator.check others tag param v) as [[ | ] | msg];
        [ exact IH | | discriminate ].
      intros H. injection H as <-. reflexivity.
Qed.

Lemma violation_reports_name (ns : string) (fv : reflect.StructField * value)
    (e : validator.FieldError) :
  validator.violation others ns fv = Return (Some e) ->
  validator.Field e = reflect.Name (fst fv).
Proof.
  destruct fv as [f v]. unfold validator.violation.
  destruct (validator.validated f); [ apply field_reports_name | discriminate ].
Qed.

(** The engine visits every field: each field in violation is reported
    once, in declaration order, whatever the fields before it did. *)
Lemma violations_every_field (ns : string) :
  forall (fvs : list (reflect.StructField * value)) (errs : list validator.FieldError),
    validator.violations others ns fvs = Return errs ->
    map validator.Field errs
    = map (fun fv => reflect.Name (fst fv))
          (List.filter (validator.violates others ns) fvs).
Proof.
  induction fvs as [ | fv fvs IH]; intros errs; cbn [validator.violations List.filter].
  - intros H. injection H as <-. reflexivity.
  - unfold validator.violates.
    destruct (validator.violation others ns fv) as [[e | ] | msg] eqn:Hv;
      try discriminate;
      destruct (validator.violations others ns fvs) as [es | msg]; try discriminate;
      intros H; injection H as <-; cbn [map].
    + rewrite (violation_reports_name ns fv e Hv), (IH es eq_refl). reflexivity.
    + apply (IH es eq_refl).
Qed.

(** C6: the validator reports one violation for every field in
    violation, in declaration order, without stopping at the first; the
    wrapper turns each into one (field, message) entry in the same
    order, and renders the sequence as "validation failed: " followed by
    the entries "field: message" joined by "; ". *)
Theorem C6_every_violation_collected_and_rendered
    (name : string) (fields : list reflect.StructField) (vals : list value)
    (errs : list validator.FieldError) :
  validator.Struct others
    {| json.ityp := reflect.TStruct name fields; json.ivals := vals |}
  = Return (validator.Invalid errs) ->
  exists es,
    formatValidationErrors (validator_ValidationErrors errs) = ValidationErrors es
    /\ map Field es
       = map (fun fv => reflect.Name (fst fv))
             (List.filter (validator.violates others (validator.baseName name))
                          (combine fields vals))
    /\ Error (ValidationErrors es)
       = "validation failed: "
         +:+ String.concat "; " (map (fun e => Field e +:+ ": " +:+ Message e) es).
Proof.
  unfold validator.Struct. cbn [json.ityp json.ivals].
  destruct (forallb _ fields); [ | discriminate ].
  destruct (validator.violations others (validator.baseName name)
              (combine fields vals)) as [[ | e es] | msg] eqn:Hv;
    try discriminate.
  intros H. injection H as <-.
  eexists. split; [ apply formatValidationErrors_each | split ].
  - rewrite map_map. cbn [Field].
    apply (violations_every_field _ _ _ Hv).
  - apply ValidationErrors_Error_joined.
Qed.

End Report.

(** C7 (amended): for an argument type with a text field under the wire
    name [name] carrying the rules [required,min=3], decoding
    {"name":"Al","age":30} and validating reports exactly one violation,
    addressed to the field by its Go name, with the message "must be at
    least 3"; decoding {"name":"Alice","age":30} validates with no
    violation. *)
Theorem C7_scenario_A_reports_the_go_field_name (goName goAge : string) :
  example.decodeAndValidate (example.ScenarioA goName goAge)
    [("name", VString "Al"); ("age", VInt 30)]
  = inr (Return (Some (ValidationErrors
                         [ {| Field := goName; Message := "must be at least 3" |} ])))
  /\ example.decodeAndValidate (example.ScenarioA goName goAge)
       [("name", VString "Alice"); ("age", VInt 30)]
     = inr (Return None).
Proof. split; reflexivity. Qed.

(** ** Numbers in schema annotations *)

Section Numbers.
Context `{RT : Runtime}.

(** What [parseNumber] does: the integer scan decides first, the
    floating-point scan second, the text is kept otherwise. *)
Lemma parseNumber_cases (s : string) :
  match fmt.Sscanf_d s, Sscanf_f s with
  | Some i, _ => parseNumber s = mcp.AInt i
  | None, Some f => parseNumber s = mcp.AFloat f
  | None, None => parseNumber s = mcp.AString s
  end.
Proof.
  unfold parseNumber.
  destruct (fmt.Sscanf_d s); [ reflexivity | ].
  destruct (Sscanf_f s); reflexivity.
Qed.

(** C8 (the code at the failing input): the value "3.5" of a [minimum=]
    token is scanned as the integer 3, whatever the floating-point scan
    would read, and the property is emitted as that integer: in the
    schema of a type with a field tagged [jsonschema:"minimum=3.5"] the
    minimum is the integer 3. *)
Theorem C8_fraction_is_emitted_as_its_integer_prefix :
  parseNumber "3.5" = mcp.AInt 3
  /\ (forall prop required fieldName,
        fst (parseJSONSchemaTag "minimum=3.5" prop required fieldName) !! "minimum"
        = Some (mcp.AInt 3))
  /\ exists schema,
       buildSchema (Some example.Offer) = Return (Some schema, None)
       /\ (mcp.Properties schema !! "price") ≫= (fun prop => prop !! "minimum")
          = Some (mcp.AInt 3).
Proof.
  split; [ reflexivity | split ].
  - intros prop required fieldName.
    change (fst (parseJSONSchemaTag "minimum=3.5" prop required fieldName))
      with (<[ "minimum" := mcp.AInt 3 ]> prop).
    apply lookup_insert_eq.
  - eexists. split; [ apply buildSchema_record; reflexivity | ].
    vm_compute. reflexivity.
Qed.

End Numbers.

(** ** The properties at work on the examples *)

Lemma C1_invalid_name_never_reaches_recording_handler :
  exists result,
    @createHandler (example.runtime nat) (New example.emptyServer)
      (Some example.TestArgs) (example.recording (VNil, None)) tt
      (example.request "test-tool"
         [("name", VString "AB"); ("age", VInt 30); ("category", VString "A")])
      0%nat
    = (Return (result, None), 0%nat)
    /\ mcp.IsError result = true.
Proof.
  apply (@C1_failed_decode_or_validation_never_reaches_handler (example.runtime nat)).
  right. do 2 eexists. split; reflexivity.
Defined.

Lemma C5_division_by_zero :
  exists r,
    @createHandler (example.runtime nat) (New example.emptyServer)
      (Some example.TestArgs)
      (example.recording (VNil, Some (errorString "division by zero"))) tt
      (example.request "test-tool"
         [("name", VString "ValidName"); ("age", VInt 30); ("category", VString "A")])
      0%nat
    = (Return (r, None), 1%nat)
    /\ mcp.IsError r = true
    /\ textOf r = ["handler error: division by zero"].
Proof.
  eapply (@C5_handler_error_is_reported_with_prefix (example.runtime nat)
            _ _ _ _ _ _ _ VNil (errorString "division by zero") 1%nat);
    reflexivity.
Defined.

Lemma C10_recording_handler_returning_nil :
  @createHandler (example.runtime nat) (New example.emptyServer)
    (Some example.TestArgs) (example.recording (VNil, None)) tt
    (example.request "test-tool"
       [("name", VString "ValidName"); ("age", VInt 30); ("category", VString "A")])
    0%nat
  = (Return (mcp.NewToolResultText "null", None), 1%nat).
Proof.
  eapply (@C10_nil_result_encodes_as_null (example.runtime nat)); reflexivity.
Defined.

Lemma C3_name_of_profile_listed_once :
  exists schema,
    @buildSchema (example.runtime unit) (Some example.Profile)
    = Return (Some schema, None)
    /\ count_occ string_dec (mcp.Required schema) "name" = 1%nat.
Proof.
  eexists. split.
  - apply buildSchema_record. reflexivity.
  - refine (@C3_required_name_listed_exactly_once (example.runtime unit)
              example.Profile _ example.nameOfProfile "name" _ _ _ _ _ _).
    + apply buildSchema_record. reflexivity.
    + left. reflexivity.
    + reflexivity.
    + reflexivity.
    + reflexivity.
    + left. reflexivity.
Defined.

Lemma C4_required_with_lists_partner :
  exists schema,
    @buildSchema (example.runtime unit) (Some example.Profile)
    = Return (Some schema, None)
    /\ In "partner" (mcp.Required schema).
Proof.
  eexists. split.
  - apply buildSchema_record. reflexivity.
  - refine (@C4_required_substring_of_validate_annotation (example.runtime unit)
              example.Profile _ example.partnerOfProfile "partner" _ _ _ _ _ _).
    + apply buildSchema_record. reflexivity.
    + right. left. reflexivity.
    + reflexivity.
    + reflexivity.
    + reflexivity.
    + reflexivity.
Defined.

Lemma C6_scenario_B_two_violations :
  exists errs es,
    validator.Struct example.noOthers
      {| json.ityp := example.ScenarioB;
         json.ivals := [VInt 150; VString "D"] |}
    = Return (validator.Invalid errs)
    /\ formatValidationErrors (validator_ValidationErrors errs) = ValidationErrors es
    /\ map Field es = ["Age"; "Category"]
    /\ Error (ValidationErrors es)
       = "validation failed: Age: must be less than or equal to 120; Category: must be one of: admin user guest".
Proof.
  eexists.
  assert (Hrun : validator.Struct example.noOthers
                   {| json.ityp := example.ScenarioB;
                      json.ivals := [VInt 150; VString "D"] |}
                 = Return (validator.Invalid
                             [ validator.mkFieldError "Age" "lte" "120" "ScenarioB.Age";
                               validator.mkFieldError "Category" "oneof"
                                 "admin user guest" "ScenarioB.Category" ]))
    by reflexivity.
  destruct (C6_every_violation_collected_and_rendered example.noOthers _ _ _ _ Hrun)
    as (es & Hformat & Hfields & Hrender).
  exists es. split; [ exact Hrun | split; [ exact Hformat | split ] ].
  - exact Hfields.
  - rewrite Hrender. vm_compute in Hformat. injection Hformat as <-. reflexivity.
Defined.

Lemma C9_no_use_and_default_description :
  @RegisterCobra (example.runtime nat) (New example.emptyServer) example.noUse
    (Some example.TestArgs) (example.recording (VNil, None))
  = Return (New example.emptyServer,
            Some (errorString "cobra command must have a Use field"))
  /\ exists description,
       describedAs example.deploy description
       /\ @RegisterCobra (example.runtime nat) (New example.emptyServer) example.deploy
            (Some example.TestArgs) (example.recording (VNil, None))
          = Register (New example.emptyServer) "deploy" description
              (Some example.TestArgs) (example.recording (VNil, None))
       /\ forall w',
            @RegisterCobra (example.runtime nat) (New example.emptyServer)
              example.deploy (Some example.TestArgs) (example.recording (VNil, None))
            = Return (w', None) ->
            exists tool,
              ListTools (server w') !! "deploy"
              = Some (tool,
                      createHandler (New example.emptyServer) (Some example.TestArgs)
                        (example.recording (VNil, None)))
              /\ mcp.Description tool = description.
Proof.
  split.
  - apply (proj1 (@C9_cobra_identifier_and_description (example.runtime nat)
                    (New example.emptyServer) example.noUse
                    (Some example.TestArgs) (example.recording (VNil, None)))).
    reflexivity.
  - apply (proj2 (@C9_cobra_identifier_and_description (example.runtime nat)
                    (New example.emptyServer) example.deploy
                    (Some example.TestArgs) (example.recording (VNil, None)))).
    discriminate.
Defined.

(** wrapper_test.go, TestBuildSchema: the required list of [TestArgs]. *)
Example TestBuildSchema_required :
  exists schema,
    @buildSchema (example.runtime unit) (Some example.TestArgs)
    = Return (Some schema, None)
    /\ mcp.Type__ schema = "object"
    /\ mcp.Required schema = ["name"; "age"; "category"]
    /\ (mcp.Properties schema !! "age") ≫= (fun prop => prop !! "maximum")
       = Some (mcp.AInt 120).
Proof.
  eexists. split; [ apply buildSchema_record; reflexivity | ].
  vm_compute. repeat split; reflexivity.
Qed.

(** wrapper_test.go, TestHandlerInvocation: valid arguments reach the
    handler, whose result is sent as JSON text. *)
Example TestHandlerInvocation :
  @createHandler (example.runtime nat) (New example.emptyServer)
    (Some example.TestArgs)
    (example.recording (VObject [("message", VString "Hello, TestUser")], None)) tt
    (example.request "test-tool"
       [("name", VString "TestUser"); ("age", VInt 30); ("category", VString "A")])
    0%nat
  = (Return (mcp.NewToolResultText
               (String.concat EmptyString
                  ["{"; json.quote (fun s => s) "message"; ":";
                   json.quote (fun s => s) "Hello, TestUser"; "}"]), None),
     1%nat).
Proof. reflexivity. Qed.

(** ** Where the specification and the package part *)

(** C3 as stated fails on a field that is not skipped: on a type whose
    only field is annotated [json:",omitempty"] and marked required, the
    wire name of the field is its Go name, [Nickname], and the required
    list of the derived schema holds the empty text in its place. *)
Lemma C3_nameless_annotation_lists_no_wire_name :
  ~ (forall (t : reflect.rtype) (schema : mcp.ToolInputSchema example.decimal)
            (f : reflect.StructField) (name : string),
        @buildSchema (example.runtime unit) (Some t) = Return (Some schema, None) ->
        In f (reflect.Fields (reflect.Indirect t)) ->
        named f = true ->
        wireName f = Some name ->
        requiredBySchema f = true \/ requiredByValidation f = true ->
        count_occ string_dec (mcp.Required schema) name = 1%nat).
Proof.
  intros H.
  pose proof (@buildSchema_record (example.runtime unit) example.Contact eq_refl) as Hb.
  specialize (H example.Contact _ example.nicknameOfContact "Nickname" Hb).
  assert (Hlist : snd (fold_left (@buildSchema_field (example.runtime unit))
                         (reflect.Fields (reflect.Indirect example.Contact)) (∅, []))
                  = [EmptyString])
    by (vm_compute; reflexivity).
  cbn [mcp.Required] in H. rewrite Hlist in H.
  assert (H1 : 0%nat = 1%nat).
  { apply H; [ left; reflexivity | reflexivity | reflexivity | left; reflexivity ]. }
  discriminate H1.
Qed.

(** C4 as stated fails on the same field: its validate annotation is
    [required], and its wire name, [Nickname], is not in the required
    list of the derived schema. *)
Lemma C4_nameless_annotation_misses_the_wire_name :
  ~ (forall (t : reflect.rtype) (schema : mcp.ToolInputSchema example.decimal)
            (f : reflect.StructField) (name : string),
        @buildSchema (example.runtime unit) (Some t) = Return (Some schema, None) ->
        In f (reflect.Fields (reflect.Indirect t)) ->
        named f = true ->
        wireName f = Some name ->
        strings.Contains (reflect.Get (reflect.Tag f) "validate") "required" = true ->
        In name (mcp.Required schema)).
Proof.
  intros H.
  pose proof (@buildSchema_record (example.runtime unit) example.Contact eq_refl) as Hb.
  specialize (H example.Contact _ example.nicknameOfContact "Nickname" Hb).
  assert (Hlist : snd (fold_left (@buildSchema_field (example.runtime unit))
                         (reflect.Fields (reflect.Indirect example.Contact)) (∅, []))
                  = [EmptyString])
    by (vm_compute; reflexivity).
  cbn [mcp.Required] in H. rewrite Hlist in H.
  assert (Hin : In "Nickname" [EmptyString]).
  { apply H; [ left; reflexivity | reflexivity | reflexivity | reflexivity ]. }
  destruct Hin as [Hin | []]. discriminate Hin.
Qed.

(** The decoder does read that field under its Go name: an argument
    object with the key [Nickname] fills it, one with the empty key does
    not. *)
Lemma nameless_annotation_decodes_under_the_go_name :
  json.ivals
    (fst (json.Unmarshal (VObject [("Nickname", VString "Al")])
            (json.New example.Contact)))
  = [VString "Al"]
  /\ json.ivals
       (fst (json.Unmarshal (VObject [(EmptyString, VString "Al")])
               (json.New example.Contact)))
     = [VString EmptyString].
Proof. split; reflexivity. Qed.

(** A field the schema deriver skips is listed under no name at all: on a
    type whose only field is tagged "-" and marked required, the derived
    required list is empty. *)
Lemma skipped_field_is_not_listed :
  ~ (exists wire : reflect.StructField -> string,
        forall (t : reflect.rtype) (schema : mcp.ToolInputSchema example.decimal)
               (f : reflect.StructField),
          @buildSchema (example.runtime unit) (Some t) = Return (Some schema, None) ->
          In f (reflect.Fields (reflect.Indirect t)) ->
          requiredBySchema f = true \/ requiredByValidation f = true ->
          count_occ string_dec (mcp.Required schema) (wire f) = 1%nat).
Proof.
  intros [wire H].
  pose proof (@buildSchema_record (example.runtime unit) example.Vault eq_refl) as Hb.
  specialize (H example.Vault _ example.secretOfProfile Hb).
  assert (Hempty : snd (fold_left (@buildSchema_field (example.runtime unit))
                          (reflect.Fields (reflect.Indirect example.Vault)) (∅, []))
                   = [])
    by (vm_compute; reflexivity).
  cbn [mcp.Required] in H. rewrite Hempty in H.
  assert (H1 : 0%nat = 1%nat).
  { apply H; [ left; reflexivity | left; reflexivity ]. }
  discriminate H1.
Qed.

(** Likewise on a type whose only field has no json annotation and whose
    validate annotation is [required]: the derived required list is
    empty. *)
Lemma unnamed_field_is_not_listed :
  ~ (exists wire : reflect.StructField -> string,
        forall (t : reflect.rtype) (schema : mcp.ToolInputSchema example.decimal)
               (f : reflect.StructField),
          @buildSchema (example.runtime unit) (Some t) = Return (Some schema, None) ->
          In f (reflect.Fields (reflect.Indirect t)) ->
          strings.Contains (reflect.Get (reflect.Tag f) "validate") "required" = true ->
          In (wire f) (mcp.Required schema)).
Proof.
  intros [wire H].
  pose proof (@buildSchema_record (example.runtime unit) example.Session eq_refl) as Hb.
  specialize (H example.Session _ example.tokenOfProfile Hb).
  assert (Hempty : snd (fold_left (@buildSchema_field (example.runtime unit))
                          (reflect.Fields (reflect.Indirect example.Session)) (∅, []))
                   = [])
    by (vm_compute; reflexivity).
  cbn [mcp.Required] in H. rewrite Hempty in H.
  apply H; [ left; reflexivity | reflexivity ].
Qed.

(** C7 as stated, the violation addressed to the wire name [name], fails
    for the field the tests declare, [Name]. *)
Lemma C7_violation_is_not_addressed_to_wire_name :
  ~ (forall goName goAge : string,
        example.decodeAndValidate (example.ScenarioA goName goAge)
          [("name", VString "Al"); ("age", VInt 30)]
        = inr (Return (Some (ValidationErrors
                               [ {| Field := "name";
                                    Message := "must be at least 3" |} ])))).
Proof.
  intros H. specialize (H "Name" "Age").
  vm_compute in H. discriminate H.
Qed.

(** C9 as stated, the default description "Execute <name>", fails for a
    command named [deploy]: it is listed as "Execute deploy command". *)
Lemma C9_default_description_ends_in_command :
  ~ (forall (cmd : Command) (w' : @Wrapper (example.runtime nat)),
        Use cmd <> "" -> Short cmd = "" -> Long cmd = "" ->
        @RegisterCobra (example.runtime nat) (New example.emptyServer) cmd
          (Some example.TestArgs) (example.recording (VNil, None))
        = Return (w', None) ->
        exists tool invoke,
          ListTools (server w') !! Use cmd = Some (tool, invoke)
          /\ mcp.Description tool = "Execute " +:+ Use cmd).
Proof.
  intros H.
  destruct (@Register (example.runtime nat) (New example.emptyServer) "deploy"
              "Execute deploy command" (Some example.TestArgs)
              (example.recording (VNil, None))) as [[w' [err | ]] | msg] eqn:Hreg.
  - unfold Register in Hreg.
    rewrite (@buildSchema_record (example.runtime nat) example.TestArgs eq_refl) in Hreg.
    discriminate Hreg.
  - destruct (Register_lists_createHandler _ _ _ _ _ _ Hreg)
      as (tool & Hlookup & _ & Hdesc).
    destruct (H example.deploy w') as (tool' & invoke & Hlookup' & Hdesc');
      [ discriminate | reflexivity | reflexivity | exact Hreg | ].
    cbn [Use example.deploy] in Hlookup'.
    rewrite Hlookup in Hlookup'. injection Hlookup' as <- _.
    rewrite Hdesc in Hdesc'. discriminate Hdesc'.
  - unfold Register in Hreg.
    rewrite (@buildSchema_record (example.runtime nat) example.TestArgs eq_refl) in Hreg.
    discriminate Hreg.
Qed.

(** * Further properties of the package *)

(** ** The required list, exactly *)

Section RequiredExactly.
Context `{RT : Runtime}.

Lemma addOnce_idempotent (required : list string) (name : string) :
  addOnce (addOnce required name) name = addOnce required name.
Proof.
  unfold addOnce at 2 3.
  destruct (contains required name) eqn:Hc; cbn [negb].
  - unfold addOnce. rewrite Hc. reflexivity.
  - unfold addOnce.
    assert (Hin : contains (required ++ [name]) name = true).
    { apply contains_In, in_or_app. right. left. reflexivity. }
    rewrite Hin. reflexivity.
Qed.

Lemma part_requiredOf (fieldName : string) (st : tagState) (part : string) :
  requiredOf (parseJSONSchemaTag_part fieldName st part)
  = if String.eqb (strings.TrimSpace part) "required"
    then addOnce (requiredOf st) fieldName
    else requiredOf st.
Proof.
  destruct st as [[prop required] enumValues].
  unfold parseJSONSchemaTag_part, requiredOf, addOnce. cbn [fst snd].
  destruct (String.eqb (strings.TrimSpace part) "required").
  - destruct (negb (contains required fieldName)); reflexivity.
  - repeat match goal with
           | |- context [if ?b then _ else _] => destruct b
           end; reflexivity.
Qed.

Lemma parts_requiredOf (fieldName : string) (parts : list string) :
  forall st : tagState,
    requiredOf (fold_left (parseJSONSchemaTag_part fieldName) parts st)
    = if existsb (fun part => String.eqb (strings.TrimSpace part) "required") parts
      then addOnce (requiredOf st) fieldName
      else requiredOf st.
Proof.
  induction parts as [ | part parts IH]; intros st; cbn [fold_left existsb].
  - reflexivity.
  - rewrite IH, part_requiredOf.
    destruct (String.eqb (strings.TrimSpace part) "required"); cbn [orb].
    + rewrite addOnce_idempotent.
      destruct (existsb _ parts); reflexivity.
    + reflexivity.
Qed.

Lemma parseJSONSchemaTag_snd (tag : string) (prop : gmap string (mcp.any float64))
    (required : list string) (fieldName : string) :
  snd (parseJSONSchemaTag tag prop required fieldName)
  = if existsb (fun part => String.eqb (strings.TrimSpace part) "required")
               (strings.Split tag ",")
    then addOnce required fieldName
    else required.
Proof.
  unfold parseJSONSchemaTag.
  pose proof (parts_requiredOf fieldName (strings.Split tag ",") (prop, required, []))
    as H.
  destruct (fold_left _ _ _) as [[prop' required'] enumValues].
  exact H.
Qed.

Lemma buildSchema_field_snd (st : schemaState) (f : reflect.StructField) :
  snd (buildSchema_field st f)
  = if marked f then addOnce (snd st) (jsonName f) else snd st.
Proof.
  destruct st as [properties required].
  unfold buildSchema_field, marked, named, requiredBySchema, requiredByValidation,
    jsonName.
  set (jsonTag := reflect.Get (reflect.Tag f) "json").
  set (schemaTag := reflect.Get (reflect.Tag f) "jsonschema").
  set (validateTag := reflect.Get (reflect.Tag f) "validate").
  set (jsonName := hd EmptyString (strings.Split jsonTag ",")).
  destruct (String.eqb jsonTag "") eqn:He; cbn [orb negb andb]; [ reflexivity | ].
  destruct (String.eqb jsonTag "-") eqn:Hd; cbn [negb andb]; [ reflexivity | ].
  pose proof (parseJSONSchemaTag_snd schemaTag
                {[ "type" := mcp.AString (inferType (reflect.Typ f)) ]}
                required jsonName) as Hsnd.
  assert (Hempty : String.eqb schemaTag "" = true ->
                   existsb (fun part => String.eqb (strings.TrimSpace part) "required")
                           (strings.Split schemaTag ",") = false).
  { intros E. apply String.eqb_eq in E. rewrite E. reflexivity. }
  assert (Hvempty : String.eqb validateTag "" = true ->
                    strings.Contains validateTag "required" = false).
  { intros E. apply String.eqb_eq in E. rewrite E. reflexivity. }
  destruct (String.eqb schemaTag "") eqn:Hs; cbn [negb].
  - rewrite (Hempty eq_refl). cbn [orb snd].
    destruct (String.eqb validateTag "") eqn:Hv; cbn [negb].
    + rewrite (Hvempty eq_refl). reflexivity.
    + fold (addOnce required jsonName).
      destruct (strings.Contains validateTag "required"); reflexivity.
  - destruct (parseJSONSchemaTag schemaTag _ required jsonName)
      as [prop' required'] eqn:Hp.
    cbn [snd] in Hsnd |- *. subst required'.
    destruct (String.eqb validateTag "") eqn:Hv; cbn [negb].
    + rewrite (Hvempty eq_refl), orb_false_r. reflexivity.
    + match goal with
      | |- context [if negb (contains ?r jsonName) then ?r ++ [jsonName] else ?r] =>
          fold (addOnce r jsonName)
      end.
      destruct (existsb _ (strings.Split schemaTag ","));
        destruct (strings.Contains validateTag "required"); cbn [orb];
        try reflexivity.
      apply addOnce_idempotent.
Qed.

Lemma buildSchema_fields_snd (fields : list reflect.StructField) :
  forall st : schemaState,
    snd (fold_left buildSchema_field fields st)
    = fold_left addOnce (map jsonName (List.filter marked fields)) (snd st).
Proof.
  induction fields as [ | f fields IH]; intros st; cbn [fold_left List.filter map].
  - reflexivity.
  - rewrite IH, buildSchema_field_snd.
    destruct (marked f); reflexivity.
Qed.

Lemma contains_app (l : list string) (x y : string) :
  contains (l ++ [x]) y = contains l y || String.eqb x y.
Proof.
  unfold contains. rewrite existsb_app. cbn [existsb]. rewrite orb_false_r.
  reflexivity.
Qed.

Lemma filter_absorb {A} (p q : A -> bool) (l : list A) :
  (forall y, p y = true -> q y = true) ->
  List.filter p (List.filter q l) = List.filter p l.
Proof.
  intros Hpq. induction l as [ | y l IH]; cbn [List.filter]; [ reflexivity | ].
  destruct (q y) eqn:Hq; cbn [List.filter].
  - rewrite IH. reflexivity.
  - destruct (p y) eqn:Hp; [ | exact IH ].
    rewrite (Hpq y Hp) in Hq. discriminate.
Qed.

Lemma filter_both {A} (p q r : A -> bool) (l : list A) :
  (forall y, r y = p y && q y) ->
  List.filter r l = List.filter p (List.filter q l).
Proof.
  intros Hr. induction l as [ | y l IH]; cbn [List.filter]; [ reflexivity | ].
  rewrite Hr. destruct (q y); cbn [List.filter].
  - rewrite andb_true_r. destruct (p y); rewrite IH; reflexivity.
  - rewrite andb_false_r. exact IH.
Qed.

Lemma fold_addOnce (l : list string) :
  forall acc,
    fold_left addOnce l acc
    = acc ++ List.filter (fun y => negb (contains acc y)) (firstOccurrences l).
Proof.
  induction l as [ | x l IH]; intros acc; cbn [fold_left firstOccurrences List.filter].
  - symmetry. apply app_nil_r.
  - rewrite IH. unfold addOnce.
    destruct (contains acc x) eqn:Hc; cbn [negb].
    + f_equal. symmetry. apply filter_absorb.
      intros y Hy. apply negb_true_iff. apply negb_true_iff in Hy.
      apply String.eqb_neq. intros ->. congruence.
    + rewrite <- app_assoc. cbn [app]. do 2 f_equal.
      apply filter_both. intros y. cbv beta.
      rewrite contains_app, negb_orb. do 2 f_equal. apply String.eqb_sym.
Qed.

Lemma filter_all {A} (l : list A) : List.filter (fun _ => true) l = l.
Proof. induction l as [ | y l IH]; cbn; [ | rewrite IH ]; reflexivity. Qed.

(** The required list of a record-shaped type, computed from the fields. *)
Lemma buildSchema_required_is (t : reflect.rtype) (schema : mcp.ToolInputSchema float64) :
  buildSchema (Some t) = Return (Some schema, None) ->
  mcp.Required schema
  = firstOccurrences
      (map jsonName (List.filter marked (reflect.Fields (reflect.Indirect t)))).
Proof.
  intros Hbuild.
  destruct (recordShaped t) eqn:Hrec.
  - rewrite (buildSchema_record t Hrec) in Hbuild.
    injection Hbuild as <-. cbn [mcp.Required].
    rewrite buildSchema_fields_snd, fold_addOnce. cbn [snd app].
    apply filter_all.
  - rewrite (buildSchema_other t Hrec) in Hbuild. discriminate.
Qed.

Lemma firstOccurrences_In (l : list string) (x : string) :
  In x (firstOccurrences l) <-> In x l.
Proof.
  induction l as [ | y l IH]; cbn [firstOccurrences]; [ reflexivity | ].
  cbn [In]. rewrite filter_In, IH. split.
  - intros [H | [H _]]; auto.
  - intros [H | H]; [ left; exact H | ].
    destruct (String.eqb x y) eqn:E.
    + left. apply String.eqb_eq in E. congruence.
    + right. split; [ exact H | reflexivity ].
Qed.

(** X1: the required list of a derived schema is, in this order, the
    names the json annotations give (the text before the first comma,
    empty for an annotation such as [json:",omitempty"]) to the fields
    that are not skipped and are marked required, each name at its first
    occurrence only. *)
Theorem X1_required_list_in_declaration_order
    (t : reflect.rtype) (schema : mcp.ToolInputSchema float64) :
  buildSchema (Some t) = Return (Some schema, None) ->
  mcp.Required schema
  = firstOccurrences
      (map jsonName (List.filter marked (reflect.Fields (reflect.Indirect t)))).
Proof. apply buildSchema_required_is. Qed.

End RequiredExactly.

(** ** The properties of a derived schema *)

Section DerivedProperties.
Context `{RT : Runtime}.

Lemma part_keeps_type (fieldName : string) (st : tagState) (part : string) :
  fst (fst (parseJSONSchemaTag_part fieldName st part)) !! "type"
  = fst (fst st) !! "type".
Proof.
  destruct st as [[prop required] enumValues].
  unfold parseJSONSchemaTag_part.
  repeat match goal with
         | |- context [if ?b then _ else _] => destruct b
         end; cbn [fst]; try reflexivity;
    apply lookup_insert_ne; discriminate.
Qed.

Lemma parts_keep_type (fieldName : string) (parts : list string) :
  forall st : tagState,
    fst (fst (fold_left (parseJSONSchemaTag_part fieldName) parts st)) !! "type"
    = fst (fst st) !! "type".
Proof.
  induction parts as [ | part parts IH]; intros st; cbn [fold_left].
  - reflexivity.
  - rewrite IH. apply part_keeps_type.
Qed.

(** No token of a jsonschema annotation touches the type of the property. *)
Lemma parseJSONSchemaTag_keeps_type (tag : string)
    (prop : gmap string (mcp.any float64)) (required : list string)
    (fieldName : string) :
  fst (parseJSONSchemaTag tag prop required fieldName) !! "type" = prop !! "type".
Proof.
  unfold parseJSONSchemaTag.
  pose proof (parts_keep_type fieldName (strings.Split tag ",") (prop, required, []))
    as H.
  destruct (fold_left _ _ _) as [[prop' required'] enumValues].
  cbn [fst] in H |- *.
  destruct (0 <? length enumValues)%nat; [ | exact H ].
  rewrite lookup_insert_ne by discriminate. exact H.
Qed.

Lemma buildSchema_field_skipped (st : schemaState) (f : reflect.StructField) :
  named f = false -> buildSchema_field st f = st.
Proof.
  destruct st as [properties required].
  unfold named, buildSchema_field.
  destruct (String.eqb (reflect.Get (reflect.Tag f) "json") "");
    [ reflexivity | ].
  destruct (String.eqb (reflect.Get (reflect.Tag f) "json") "-");
    [ reflexivity | discriminate ].
Qed.

Lemma buildSchema_field_named (st : schemaState) (f : reflect.StructField) :
  named f = true ->
  exists prop,
    fst (buildSchema_field st f) = <[ jsonName f := prop ]> (fst st)
    /\ prop !! "type" = Some (mcp.AString (inferType (reflect.Typ f))).
Proof.
  destruct st as [properties required].
  unfold named, buildSchema_field, jsonName.
  destruct (String.eqb (reflect.Get (reflect.Tag f) "json") "");
    [ discriminate | ].
  destruct (String.eqb (reflect.Get (reflect.Tag f) "json") "-");
    [ discriminate | ].
  intros _. cbn [orb].
  destruct (negb (String.eqb (reflect.Get (reflect.Tag f) "jsonschema") "")).
  - pose proof (parseJSONSchemaTag_keeps_type
                  (reflect.Get (reflect.Tag f) "jsonschema")
                  {[ "type" := mcp.AString (inferType (reflect.Typ f)) ]} required
                  (hd EmptyString
                      (strings.Split (reflect.Get (reflect.Tag f) "json") ",")))
      as Hkeep.
    destruct (parseJSONSchemaTag _ _ _ _) as [prop' required'].
    cbn [fst] in Hkeep |- *. exists prop'. split; [ reflexivity | ].
    rewrite Hkeep. apply lookup_singleton_eq.
  - eexists. split; [ reflexivity | apply lookup_singleton_eq ].
Qed.

Lemma buildSchema_fields_lookup (fields : list reflect.StructField) (k : string)
    (prop : gmap string (mcp.any float64)) :
  forall st : schemaState,
    fst (fold_left buildSchema_field fields st) !! k = Some prop ->
    fst st !! k = Some prop
    \/ exists f,
         In f fields /\ named f = true /\ jsonName f = k
         /\ prop !! "type" = Some (mcp.AString (inferType (reflect.Typ f))).
Proof.
  induction fields as [ | f fields IH]; intros st; cbn [fold_left].
  - intros H. left. exact H.
  - intros H. destruct (IH _ H) as [Hhere | (f' & Hin & Hn & Hw & Ht)].
    + destruct (named f) eqn:Hnamed.
      * destruct (buildSchema_field_named st f Hnamed) as (prop' & Heq & Htype).
        rewrite Heq in Hhere.
        destruct (decide (jsonName f = k)) as [Hk | Hk].
        -- subst k. rewrite lookup_insert_eq in Hhere. injection Hhere as <-.
           right. exists f. repeat split; auto. left. reflexivity.
        -- rewrite lookup_insert_ne in Hhere by exact Hk. left. exact Hhere.
      * rewrite (buildSchema_field_skipped st f Hnamed) in Hhere. left. exact Hhere.
    + right. exists f'. repeat split; auto. right. exact Hin.
Qed.

Lemma buildSchema_fields_present (fields : list reflect.StructField) (k : string) :
  forall st : schemaState,
    (is_Some (fst st !! k)
     \/ exists f, In f fields /\ named f = true /\ jsonName f = k) ->
    is_Some (fst (fold_left buildSchema_field fields st) !! k).
Proof.
  induction fields as [ | f fields IH]; intros st; cbn [fold_left].
  - intros [H | (f & [] & _)]. exact H.
  - intros H. apply IH.
    destruct (named f) eqn:Hnamed.
    + destruct (buildSchema_field_named st f Hnamed) as (prop' & Heq & _).
      rewrite Heq.
      destruct (decide (jsonName f = k)) as [Hk | Hk].
      * left. subst k. rewrite lookup_insert_eq. eexists. reflexivity.
      * rewrite lookup_insert_ne by exact Hk.
        destruct H as [H | (f' & [<- | Hin] & Hn & Hw)].
        -- left. exact H.
        -- contradiction.
        -- right. exists f'. auto.
    + rewrite (buildSchema_field_skipped st f Hnamed).
      destruct H as [H | (f' & [<- | Hin] & Hn & Hw)].
      * left. exact H.
      * congruence.
      * right. exists f'. auto.
Qed.

Lemma buildSchema_properties (t : reflect.rtype) (schema : mcp.ToolInputSchema float64) :
  buildSchema (Some t) = Return (Some schema, None) ->
  mcp.Properties schema
  = fst (fold_left buildSchema_field (reflect.Fields (reflect.Indirect t)) (∅, [])).
Proof.
  intros Hbuild.
  destruct (recordShaped t) eqn:Hrec.
  - rewrite (buildSchema_record t Hrec) in Hbuild.
    injection Hbuild as <-. reflexivity.
  - rewrite (buildSchema_other t Hrec) in Hbuild. discriminate.
Qed.

(** X2: the properties of a derived schema are keyed by exactly the names
    the json annotations give to the fields that are not skipped: a field
    without a json annotation, or tagged "-", has no property, every
    other field has one under the text before the first comma of its
    json annotation, the empty text when there is none. *)
Theorem X2_properties_are_the_named_fields
    (t : reflect.rtype) (schema : mcp.ToolInputSchema float64) (k : string) :
  buildSchema (Some t) = Return (Some schema, None) ->
  is_Some (mcp.Properties schema !! k)
  <-> exists f,
        In f (reflect.Fields (reflect.Indirect t))
        /\ named f = true /\ jsonName f = k.
Proof.
  intros Hbuild. rewrite (buildSchema_properties t schema Hbuild). split.
  - intros [prop Hprop].
    destruct (buildSchema_fields_lookup _ _ _ _ Hprop)
      as [Hempty | (f & Hin & Hn & Hw & _)].
    + cbn [fst] in Hempty. rewrite lookup_empty in Hempty. discriminate.
    + exists f. auto.
  - intros H. apply buildSchema_fields_present. right. exact H.
Qed.

(** X3: every property of a derived schema carries a type, the JSON type
    [inferType] gives to the Go type of a field that is not skipped and
    whose json annotation gives the key as its name; no annotation
    overrides it. *)
Theorem X3_property_type_comes_from_the_field
    (t : reflect.rtype) (schema : mcp.ToolInputSchema float64) (k : string)
    (prop : gmap string (mcp.any float64)) :
  buildSchema (Some t) = Return (Some schema, None) ->
  mcp.Properties schema !! k = Some prop ->
  exists f,
    In f (reflect.Fields (reflect.Indirect t))
    /\ named f = true /\ jsonName f = k
    /\ prop !! "type" = Some (mcp.AString (inferType (reflect.Typ f)))
    /\ In (inferType (reflect.Typ f)) jsonTypes.
Proof.
  intros Hbuild Hprop. rewrite (buildSchema_properties t schema Hbuild) in Hprop.
  destruct (buildSchema_fields_lookup _ _ _ _ Hprop)
    as [Hempty | (f & Hin & Hn & Hw & Ht)].
  - cbn [fst] in Hempty. rewrite lookup_empty in Hempty. discriminate.
  - exists f. repeat split; auto.
    unfold inferType, jsonTypes.
    destruct (reflect.KindOf (reflect.Typ f)); cbn; tauto.
Qed.

(** X4: every name in the required list of a derived schema is the key of
    one of its properties. *)
Theorem X4_required_names_have_properties
    (t : reflect.rtype) (schema : mcp.ToolInputSchema float64) (name : string) :
  buildSchema (Some t) = Return (Some schema, None) ->
  In name (mcp.Required schema) ->
  is_Some (mcp.Properties schema !! name).
Proof.
  intros Hbuild Hin.
  rewrite (buildSchema_required_is t schema Hbuild) in Hin.
  apply firstOccurrences_In, in_map_iff in Hin.
  destruct Hin as (f & Hw & Hf). apply filter_In in Hf as [Hf Hm].
  rewrite (buildSchema_properties t schema Hbuild).
  apply buildSchema_fields_present. right. exists f.
  unfold marked in Hm. apply andb_true_iff in Hm as [Hn _]. auto.
Qed.

(** X5: a pointer to a struct type derives the schema of the struct
    type. *)
Theorem X5_pointer_derives_the_schema_of_its_struct
    (name : string) (fields : list reflect.StructField) :
  buildSchema (Some (reflect.TPtr (reflect.TStruct name fields)))
  = buildSchema (Some (reflect.TStruct name fields)).
Proof.
  rewrite (buildSchema_record (reflect.TPtr (reflect.TStruct name fields)) eq_refl).
  rewrite (buildSchema_record (reflect.TStruct name fields) eq_refl).
  reflexivity.
Qed.

End DerivedProperties.

(** ** The tokens of a jsonschema annotation *)

Section AnnotationTokens.
Context `{RT : Runtime}.

(** Two prefixes of one text: one of them is a prefix of the other. *)
Lemma HasPrefix_comparable (a b : string) :
  forall p,
    strings.HasPrefix p a = true -> strings.HasPrefix p b = true ->
    strings.HasPrefix b a = true \/ strings.HasPrefix a b = true.
Proof.
  unfold strings.HasPrefix. revert b.
  induction a as [ | x a IH]; intros b p Ha Hb.
  - left. destruct b; reflexivity.
  - destruct b as [ | y b]; [ right; reflexivity | ].
    destruct p as [ | z p]; [ discriminate | ].
    cbn [String.prefix] in Ha, Hb |- *.
    destruct (ascii_dec x z) as [-> | ]; [ | discriminate ].
    destruct (ascii_dec y z) as [-> | ]; [ | discriminate ].
    destruct (ascii_dec z z) as [_ | Hne]; [ | contradiction ].
    exact (IH b p Ha Hb).
Qed.

Ltac exclusive :=
  match goal with
  | H1 : strings.HasPrefix ?p ?a = true, H2 : strings.HasPrefix ?p ?b = true |- _ =>
      tryif unify a b then fail
      else (destruct (HasPrefix_comparable a b p H1 H2) as [C | C];
            vm_compute in C; discriminate C)
  end.

Ltac by_token :=
  repeat match goal with
         | |- context [if strings.HasPrefix ?q ?k then _ else _] =>
             destruct (strings.HasPrefix q k) eqn:?
         end;
  cbn [fst snd];
  first [ reflexivity
        | exclusive
        | apply lookup_insert_eq
        | rewrite lookup_insert_ne by discriminate; reflexivity
        | symmetry; apply app_nil_r ].

(** One turn of the loop, seen from one key of the property: a token
    [key=value] sets it, every other token leaves it. *)
Lemma part_sets_key (fieldName : string) (st : tagState) (part : string)
    (key : string) (val : string -> mcp.any float64) :
  (key = "description" /\ val = mcp.AString)
  \/ (In key ["minimum"; "maximum"; "minLength"; "maxLength"] /\ val = parseNumber) ->
  fst (fst (parseJSONSchemaTag_part fieldName st part)) !! key
  = if strings.HasPrefix (strings.TrimSpace part) (key +:+ "=")
    then Some (val (strings.TrimPrefix (strings.TrimSpace part) (key +:+ "=")))
    else fst (fst st) !! key.
Proof.
  destruct st as [[prop required] enumValues].
  unfold parseJSONSchemaTag_part.
  set (p := strings.TrimSpace part).
  intros Hkey.
  destruct (String.eqb p "required") eqn:Hr.
  - apply String.eqb_eq in Hr. rewrite Hr.
    destruct Hkey as [[-> ->] | [[<- | [<- | [<- | [<- | []]]]] ->]];
      destruct (negb (contains required fieldName)); reflexivity.
  - destruct Hkey as [[-> ->] | [[<- | [<- | [<- | [<- | []]]]] ->]];
      repeat match goal with
             | |- context [?a +:+ "="] =>
                 let r := eval vm_compute in (a +:+ "=") in
                 change (a +:+ "=") with r
             end;
      by_token.
Qed.

Lemma parts_set_key (fieldName : string) (key pre : string)
    (val : string -> mcp.any float64) (parts : list string) :
  (forall st part,
      fst (fst (parseJSONSchemaTag_part fieldName st part)) !! key
      = if strings.HasPrefix (strings.TrimSpace part) pre
        then Some (val (strings.TrimPrefix (strings.TrimSpace part) pre))
        else fst (fst st) !! key) ->
  forall st : tagState,
    fst (fst (fold_left (parseJSONSchemaTag_part fieldName) parts st)) !! key
    = match map (fun p => strings.TrimPrefix p pre)
                (List.filter (fun p => strings.HasPrefix p pre)
                             (map strings.TrimSpace parts)) with
      | [] => fst (fst st) !! key
      | v :: vs => Some (val (List.last (v :: vs) EmptyString))
      end.
Proof.
  intros Hstep.
  induction parts as [ | part parts IH]; intros st;
    cbn [fold_left map List.filter].
  - reflexivity.
  - rewrite IH, Hstep.
    destruct (strings.HasPrefix (strings.TrimSpace part) pre); cbn [map].
    + destruct (map _ (List.filter _ (map strings.TrimSpace parts))); reflexivity.
    + reflexivity.
Qed.

Lemma part_enumValues (fieldName : string) (st : tagState) (part : string) :
  snd (parseJSONSchemaTag_part fieldName st part)
  = snd st
    ++ (if strings.HasPrefix (strings.TrimSpace part) "enum="
        then [strings.TrimPrefix (strings.TrimSpace part) "enum="]
        else []).
Proof.
  destruct st as [[prop required] enumValues].
  unfold parseJSONSchemaTag_part.
  set (p := strings.TrimSpace part).
  destruct (String.eqb p "required") eqn:Hr.
  - apply String.eqb_eq in Hr. rewrite Hr.
    destruct (negb (contains required fieldName)); cbn [snd];
      symmetry; apply app_nil_r.
  - by_token.
Qed.

Lemma part_keeps_enum (fieldName : string) (st : tagState) (part : string) :
  fst (fst (parseJSONSchemaTag_part fieldName st part)) !! "enum"
  = fst (fst st) !! "enum".
Proof.
  destruct st as [[prop required] enumValues].
  unfold parseJSONSchemaTag_part.
  repeat match goal with
         | |- context [if ?b then _ else _] => destruct b
         end; cbn [fst]; try reflexivity;
    apply lookup_insert_ne; discriminate.
Qed.

Lemma parts_enumValues (fieldName : string) (parts : list string) :
  forall st : tagState,
    snd (fold_left (parseJSONSchemaTag_part fieldName) parts st)
    = snd st
      ++ map (fun p => strings.TrimPrefix p "enum=")
             (List.filter (fun p => strings.HasPrefix p "enum=")
                          (map strings.TrimSpace parts))
    /\ fst (fst (fold_left (parseJSONSchemaTag_part fieldName) parts st)) !! "enum"
       = fst (fst st) !! "enum".
Proof.
  induction parts as [ | part parts IH]; intros st;
    cbn [fold_left map List.filter].
  - split; [ symmetry; apply app_nil_r | reflexivity ].
  - destruct (IH (parseJSONSchemaTag_part fieldName st part)) as [IHv IHk].
    rewrite IHv, IHk, part_enumValues, part_keeps_enum.
    split; [ | reflexivity ].
    rewrite <- app_assoc.
    destruct (strings.HasPrefix (strings.TrimSpace part) "enum="); reflexivity.
Qed.

(** X6: the [enum] of a property is the list of the values of the
    [enum=] tokens of the annotation, in the order written and with
    repetitions kept; without such a token no [enum] is set. *)
Theorem X6_enum_values_accumulate_in_order
    (tag : string) (prop : gmap string (mcp.any float64)) (required : list string)
    (fieldName : string) :
  fst (parseJSONSchemaTag tag prop required fieldName) !! "enum"
  = match valuesOf "enum" tag with
    | [] => prop !! "enum"
    | v :: vs => Some (mcp.AStrings (v :: vs))
    end.
Proof.
  unfold parseJSONSchemaTag, valuesOf, tokens.
  destruct (parts_enumValues fieldName (strings.Split tag ",") (prop, required, []))
    as [Hv Hk].
  destruct (fold_left _ _ _) as [[prop' required'] enumValues].
  cbn [fst snd app String.append] in Hv, Hk |- *. subst enumValues.
  destruct (map _ (List.filter _ (map strings.TrimSpace (strings.Split tag ","))))
    as [ | v vs]; cbn [length Nat.ltb Nat.leb].
  - exact Hk.
  - apply lookup_insert_eq.
Qed.

Lemma parseJSONSchemaTag_key (tag : string) (prop : gmap string (mcp.any float64))
    (required : list string) (fieldName : string)
    (key : string) (val : string -> mcp.any float64) :
  (key = "description" /\ val = mcp.AString)
  \/ (In key ["minimum"; "maximum"; "minLength"; "maxLength"] /\ val = parseNumber) ->
  fst (parseJSONSchemaTag tag prop required fieldName) !! key
  = match valuesOf key tag with
    | [] => prop !! key
    | v :: vs => Some (val (List.last (v :: vs) EmptyString))
    end.
Proof.
  intros Hkey.
  assert (Hne : key <> "enum").
  { destruct Hkey as [[-> _] | [[<- | [<- | [<- | [<- | []]]]] _]]; discriminate. }
  unfold parseJSONSchemaTag, valuesOf, tokens.
  pose proof (parts_set_key fieldName key (key +:+ "=") val (strings.Split tag ",")
                (fun st part => part_sets_key fieldName st part key val Hkey)
                (prop, required, [])) as H.
  destruct (fold_left _ _ _) as [[prop' required'] enumValues].
  cbn [fst] in H |- *.
  destruct (0 <? length enumValues)%nat; [ | exact H ].
  rewrite lookup_insert_ne by (intros E; apply Hne; symmetry; exact E).
  exact H.
Qed.

(** X7: for each of [minimum], [maximum], [minLength] and [maxLength], the
    property holds what [parseNumber] makes of the value of the last
    token [key=value] of the annotation; without such a token the key is
    not set. *)
Theorem X7_last_numeric_token_wins
    (tag : string) (prop : gmap string (mcp.any float64)) (required : list string)
    (fieldName : string) (key : string) :
  In key ["minimum"; "maximum"; "minLength"; "maxLength"] ->
  fst (parseJSONSchemaTag tag prop required fieldName) !! key
  = match valuesOf key tag with
    | [] => prop !! key
    | v :: vs => Some (parseNumber (List.last (v :: vs) EmptyString))
    end.
Proof.
  intros Hkey. apply parseJSONSchemaTag_key. right. split; [ exact Hkey | reflexivity ].
Qed.

(** X8: the description of a property is the text after [description=]
    in the last such token of the annotation, taken as it stands. *)
Theorem X8_last_description_wins
    (tag : string) (prop : gmap string (mcp.any float64)) (required : list string)
    (fieldName : string) :
  fst (parseJSONSchemaTag tag prop required fieldName) !! "description"
  = match valuesOf "description" tag with
    | [] => prop !! "description"
    | v :: vs => Some (mcp.AString (List.last (v :: vs) EmptyString))
    end.
Proof. apply parseJSONSchemaTag_key. left. split; reflexivity. Qed.

End AnnotationTokens.

(** ** Numbers written in decimal *)

Section DecimalNumbers.
Context `{RT : Runtime}.

Lemma append_cons (c : ascii) (s t : string) :
  String c s +:+ t = String c (s +:+ t).
Proof. reflexivity. Qed.

Lemma append_nil_l (t : string) : EmptyString +:+ t = t.
Proof. reflexivity. Qed.

Lemma append_nil_r (s : string) : s +:+ EmptyString = s.
Proof.
  induction s as [ | c s IH]; [ reflexivity | ].
  rewrite append_cons, IH. reflexivity.
Qed.

Lemma append_assoc (a b c : string) : (a +:+ b) +:+ c = a +:+ (b +:+ c).
Proof.
  induction a as [ | x a IH]; [ reflexivity | ].
  rewrite !append_cons, IH. reflexivity.
Qed.

Lemma length_snoc (s : string) (c : ascii) :
  String.length (s +:+ String c EmptyString) = S (String.length s).
Proof.
  induction s as [ | x s IH]; [ reflexivity | ].
  rewrite append_cons. cbn [String.length]. rewrite IH. reflexivity.
Qed.

Lemma digit_char (d : Z) :
  0 <= d < 10 ->
  strconv.isDigit (ascii_of_N (Z.to_N (48 + d))) = true
  /\ Z.of_N (N_of_ascii (ascii_of_N (Z.to_N (48 + d)))) - 48 = d.
Proof.
  intros Hd. unfold strconv.isDigit.
  rewrite N_ascii_embedding by lia.
  split; [ | lia ].
  apply andb_true_iff. split; apply N.leb_le; lia.
Qed.

Lemma digits_app (s1 s2 : string) :
  forall a,
    strconv.digits (s1 +:+ s2) a
    = match strconv.digits s1 a with
      | Some v => strconv.digits s2 v
      | None => None
      end.
Proof.
  induction s1 as [ | c s1 IH]; intros a.
  - reflexivity.
  - rewrite append_cons. cbn [strconv.digits].
    destruct (strconv.isDigit c); [ apply IH | reflexivity ].
Qed.

Lemma allDigits_app (s1 s2 : string) :
  allDigits (s1 +:+ s2) = allDigits s1 && allDigits s2.
Proof.
  induction s1 as [ | c s1 IH].
  - reflexivity.
  - rewrite append_cons. cbn [allDigits]. rewrite IH, andb_assoc. reflexivity.
Qed.

(** What [uitoa] writes in front of [acc]: digits only, at least one,
    reading back as [n]. *)
Lemma uitoa_writes (fuel : nat) :
  forall (n : Z) (acc : string),
    (0 < fuel)%nat ->
    0 <= n < 10 ^ Z.of_nat fuel ->
    exists pre,
      strconv.uitoa fuel n acc = pre +:+ acc
      /\ pre <> EmptyString
      /\ allDigits pre = true
      /\ forall a, strconv.digits pre a
                   = Some (a * 10 ^ Z.of_nat (String.length pre) + n).
Proof.
  induction fuel as [ | fuel IH]; intros n acc Hfuel Hn.
  - lia.
  - cbn [strconv.uitoa].
    assert (Hd : 0 <= n mod 10 < 10) by (apply Z.mod_pos_bound; lia).
    destruct (digit_char (n mod 10) Hd) as [Hdigit Hval].
    set (c := ascii_of_N (Z.to_N (48 + n mod 10))) in *.
    destruct (n / 10 =? 0) eqn:Hq.
    + apply Z.eqb_eq in Hq.
      exists (String c EmptyString). repeat split.
      * discriminate.
      * cbn. rewrite Hdigit. reflexivity.
      * intros a. cbn [strconv.digits String.length]. rewrite Hdigit, Hval.
        f_equal. pose proof (Z.div_mod n 10). lia.
    + apply Z.eqb_neq in Hq.
      assert (Hn' : 0 <= n / 10 < 10 ^ Z.of_nat fuel).
      { split; [ apply Z.div_pos; lia | ].
        apply Z.div_lt_upper_bound; [ lia | ].
        replace (Z.of_nat (S fuel)) with (Z.succ (Z.of_nat fuel)) in Hn by lia.
        rewrite Z.pow_succ_r in Hn by lia. lia. }
      assert (Hfuel' : (0 < fuel)%nat).
      { destruct fuel; [ | lia ]. cbn in Hn'. lia. }
      destruct (IH (n / 10) (String c acc) Hfuel' Hn')
        as (pre & Heq & Hne & Hall & Hread).
      exists (pre +:+ String c EmptyString). repeat split.
      * rewrite Heq, append_assoc. reflexivity.
      * destruct pre; [ contradiction | discriminate ].
      * rewrite allDigits_app, Hall. cbn. rewrite Hdigit. reflexivity.
      * intros a. rewrite digits_app, Hread.
        cbn [strconv.digits]. rewrite Hdigit, Hval. f_equal.
        rewrite length_snoc.
        replace (Z.of_nat (S (String.length pre)))
          with (Z.succ (Z.of_nat (String.length pre))) by lia.
        rewrite Z.pow_succ_r by lia.
        pose proof (Z.div_mod n 10). lia.
Qed.

Lemma fuel_suffices (n : Z) :
  0 <= n -> 0 <= n < 10 ^ Z.of_nat (S (Z.to_nat (Z.log2 n))).
Proof.
  intros Hn. split; [ exact Hn | ].
  replace (Z.of_nat (S (Z.to_nat (Z.log2 n)))) with (Z.succ (Z.log2 n))
    by (pose proof (Z.log2_nonneg n); lia).
  destruct (Z.eq_dec n 0) as [-> | Hne].
  - cbn. lia.
  - pose proof (Z.log2_spec n ltac:(lia)) as [_ Hlt].
    pose proof (Z.log2_nonneg n).
    eapply Z.lt_le_trans; [ exact Hlt | ].
    apply Z.pow_le_mono_l. lia.
Qed.

(** The decimal text of a natural number. *)
Lemma Itoa_nonneg (n : Z) :
  0 <= n ->
  exists pre,
    strconv.Itoa n = pre /\ pre <> EmptyString /\ allDigits pre = true
    /\ strconv.digits pre 0 = Some n.
Proof.
  intros Hn. unfold strconv.Itoa.
  destruct (n <? 0) eqn:Hneg; [ apply Z.ltb_lt in Hneg; lia | ].
  destruct (uitoa_writes _ n EmptyString (Nat.lt_0_succ _) (fuel_suffices n Hn))
    as (pre & Heq & Hne & Hall & Hread).
  exists pre. rewrite Heq, append_nil_r. repeat split; auto.
Qed.

Lemma Itoa_neg (n : Z) :
  n < 0 ->
  exists pre,
    strconv.Itoa n = String "-" pre /\ pre <> EmptyString /\ allDigits pre = true
    /\ strconv.digits pre 0 = Some (- n).
Proof.
  intros Hn. unfold strconv.Itoa.
  destruct (n <? 0) eqn:Hneg; [ | apply Z.ltb_ge in Hneg; lia ].
  destruct (uitoa_writes _ (- n) EmptyString (Nat.lt_0_succ _)
              (fuel_suffices (- n) ltac:(lia)))
    as (pre & Heq & Hne & Hall & Hread).
  exists pre. rewrite Heq, append_nil_r. repeat split; auto.
Qed.

Lemma accepted_digits (pre rest : string) :
  allDigits pre = true -> startsWithDigit rest = false ->
  fmt.accepted strconv.isDigit (pre +:+ rest) = pre.
Proof.
  intros Hall Hrest.
  induction pre as [ | c pre IH].
  - rewrite append_nil_l. destruct rest as [ | c rest]; [ reflexivity | ].
    cbn in Hrest |- *. rewrite Hrest. reflexivity.
  - cbn in Hall. apply andb_true_iff in Hall as [Hc Hall].
    rewrite append_cons. cbn [fmt.accepted]. rewrite Hc, (IH Hall). reflexivity.
Qed.

(** A printable ASCII character is no white space and starts none. *)
Lemma leadingSpace_printable (c : ascii) (r : string) :
  (33 <= N_of_ascii c <= 127)%N ->
  strings.leadingSpace (String c r) = O /\ (N_of_ascii c =? 10)%N = false.
Proof.
  intros Hc. split; [ | apply N.eqb_neq; lia ].
  unfold strings.leadingSpace, strings.asciiSpace, strings.byte.
  assert (E1 : (N_of_ascii c <=? 13)%N = false) by (apply N.leb_gt; lia).
  assert (E2 : (N_of_ascii c =? 32)%N = false) by (apply N.eqb_neq; lia).
  assert (E3 : (N_of_ascii c =? 194)%N = false) by (apply N.eqb_neq; lia).
  assert (E4 : (N_of_ascii c =? 225)%N = false) by (apply N.eqb_neq; lia).
  assert (E5 : (N_of_ascii c =? 226)%N = false) by (apply N.eqb_neq; lia).
  assert (E6 : (N_of_ascii c =? 227)%N = false) by (apply N.eqb_neq; lia).
  rewrite E1, E2, andb_false_r. cbn [orb].
  destruct r as [ | c1 r1]; [ reflexivity | ].
  cbv zeta. rewrite E3. cbn [andb].
  destruct r1 as [ | c2 r2]; [ reflexivity | ].
  rewrite E4, E5, E6. reflexivity.
Qed.

Lemma SkipSpace_printable (c : ascii) (r : string) :
  (33 <= N_of_ascii c <= 127)%N ->
  fmt.SkipSpace (String.length (String c r)) (String c r) = Some (String c r).
Proof.
  intros Hc. destruct (leadingSpace_printable c r Hc) as [Hl Hn].
  cbn [String.length fmt.SkipSpace]. rewrite Hn, Hl. reflexivity.
Qed.

Lemma digit_is_printable (c : ascii) :
  strconv.isDigit c = true ->
  (33 <= N_of_ascii c <= 127)%N /\ fmt.isSign c = false.
Proof.
  unfold strconv.isDigit, fmt.isSign. intros H.
  apply andb_true_iff in H as [H1 H2].
  apply N.leb_le in H1. apply N.leb_le in H2.
  split; [ lia | ].
  apply orb_false_iff. split; apply N.eqb_neq; lia.
Qed.

Lemma ParseInt_unsigned (c : ascii) (r : string) (n : Z) :
  strconv.isDigit c = true ->
  strconv.digits (String c r) 0 = Some n ->
  - 2 ^ 63 <= n < 2 ^ 63 ->
  strconv.ParseInt (String c r) = Some n.
Proof.
  intros Hc Hread Hrange. unfold strconv.ParseInt.
  assert (Hbody : (match String c r with
                   | String "-" r0 => (true, r0)
                   | String "+" r0 => (false, r0)
                   | _ => (false, String c r)
                   end) = (false, String c r)).
  { destruct c as [[] [] [] [] [] [] [] []]; try reflexivity; discriminate Hc. }
  rewrite Hbody, Hread.
  assert (Hok : (- 2 ^ 63 <=? n) && (n <=? 2 ^ 63 - 1) = true).
  { apply andb_true_iff. split; apply Z.leb_le; lia. }
  rewrite Hok. reflexivity.
Qed.

Lemma ParseInt_negative (pre : string) (m : Z) :
  pre <> EmptyString ->
  strconv.digits pre 0 = Some m ->
  - 2 ^ 63 <= - m < 2 ^ 63 ->
  strconv.ParseInt (String "-" pre) = Some (- m).
Proof.
  intros Hne Hread Hrange. unfold strconv.ParseInt.
  destruct pre as [ | c r]; [ contradiction | ].
  rewrite Hread.
  assert (Hok : (- 2 ^ 63 <=? - m) && (- m <=? 2 ^ 63 - 1) = true).
  { apply andb_true_iff. split; apply Z.leb_le; lia. }
  rewrite Hok. reflexivity.
Qed.

(** The integer scan reads back the decimal text of an [int], whatever
    follows it. *)
Lemma Sscanf_d_Itoa (n : Z) (suffix : string) :
  - 2 ^ 63 <= n < 2 ^ 63 ->
  startsWithDigit suffix = false ->
  fmt.Sscanf_d (strconv.Itoa n +:+ suffix) = Some n.
Proof.
  intros Hrange Hsuffix. unfold fmt.Sscanf_d.
  destruct (Z_lt_le_dec n 0) as [Hneg | Hpos].
  - destruct (Itoa_neg n Hneg) as (pre & -> & Hne & Hall & Hread).
    rewrite append_cons.
    rewrite (SkipSpace_printable "-" (pre +:+ suffix)) by (cbn; lia).
    change (fmt.isSign "-") with true. cbv iota.
    rewrite (accepted_digits pre suffix Hall Hsuffix).
    destruct pre as [ | c r] eqn:Hpre; [ contradiction | ].
    rewrite <- Hpre in *.
    pose proof (ParseInt_negative pre (- n) Hne Hread ltac:(lia)) as HP.
    rewrite Z.opp_involutive in HP. exact HP.
  - destruct (Itoa_nonneg n Hpos) as (pre & -> & Hne & Hall & Hread).
    destruct pre as [ | c r]; [ contradiction | ].
    pose proof Hall as Hall'. cbn in Hall'.
    apply andb_true_iff in Hall' as [Hc _].
    destruct (digit_is_printable c Hc) as [Hprint Hsign].
    rewrite append_cons.
    rewrite (SkipSpace_printable c (r +:+ suffix) Hprint), Hsign.
    rewrite <- append_cons.
    rewrite (accepted_digits (String c r) suffix Hall Hsuffix).
    rewrite append_nil_l. apply ParseInt_unsigned; assumption.
Qed.

(** X9: the decimal text of an [int], followed by nothing or by any text
    that does not start with a digit, is emitted by [parseNumber] as that
    integer; what follows the digits is dropped. *)
Theorem X9_decimal_integer_prefix_is_the_number (n : Z) (suffix : string) :
  - 2 ^ 63 <= n < 2 ^ 63 ->
  startsWithDigit suffix = false ->
  parseNumber (strconv.Itoa n +:+ suffix) = mcp.AInt n.
Proof.
  intros Hrange Hsuffix. unfold parseNumber.
  rewrite (Sscanf_d_Itoa n suffix Hrange Hsuffix). reflexivity.
Qed.

End DecimalNumbers.

(** ** The encode stage and the error payloads *)

Section Payloads.
Context `{RT : Runtime}.
Variables (w : Wrapper) (t : reflect.rtype) (handler : Handler).
Variables (ctx : Context_) (request : mcp.CallToolRequest) (world : World).

Lemma UnmarshalMap_digit (c : ascii) (r : string) :
  strconv.isDigit c = true -> exists e, json.UnmarshalMap (String c r) = Some e.
Proof.
  intros Hc.
  destruct c as [[] [] [] [] [] [] [] []]; try discriminate Hc;
    eexists; reflexivity.
Qed.

Lemma UnmarshalMap_Itoa (n : Z) : exists e, json.UnmarshalMap (strconv.Itoa n) = Some e.
Proof.
  destruct (Z_lt_le_dec n 0) as [Hneg | Hpos].
  - destruct (Itoa_neg n Hneg) as (pre & -> & _). eexists. reflexivity.
  - destruct (Itoa_nonneg n Hpos) as (pre & -> & Hne & Hall & _).
    destruct pre as [ | c r]; [ contradiction | ].
    cbn in Hall. apply andb_true_iff in Hall as [Hc _].
    apply UnmarshalMap_digit. exact Hc.
Qed.

Lemma Marshal_slice (elems : list value) :
  (exists e, json.Marshal escape (VSlice elems) = inr e)
  \/ (exists r, json.Marshal escape (VSlice elems) = inl (String "[" r)).
Proof.
  cbn [json.Marshal].
  match goal with
  | |- context [match ?items with inl _ => _ | inr _ => _ end] =>
      destruct items as [ts | e]
  end; [ right | left ]; eexists; reflexivity.
Qed.

(** X10: a handler result that is a Go string is sent as it is, without
    quotes or escapes, as a success payload. *)
Theorem X10_string_result_is_sent_raw
    (target : interface) (s : string) (world' : World) :
  BindArguments request (reflect_New t) = (target, None) ->
  Struct (validator_ w) target = Return None ->
  handler ctx target world = (Return (VString s, None), world') ->
  createHandler w (Some t) handler ctx request world
  = (Return (mcp.NewToolResultText s, None), world').
Proof.
  intros Hbind Hval Hcall. unfold createHandler.
  rewrite Hbind, Hval, Hcall. reflexivity.
Qed.

(** X11: a handler result that encodes as a JSON object, that is a
    string-keyed map or a struct encoded field by field, is sent as its
    JSON text, as a success payload. *)
Theorem X11_object_result_is_sent_as_json
    (target : interface) (members : list (string * value)) (text : string)
    (world' : World) :
  BindArguments request (reflect_New t) = (target, None) ->
  Struct (validator_ w) target = Return None ->
  handler ctx target world = (Return (VObject members, None), world') ->
  json.Marshal escape (VObject members) = inl text ->
  createHandler w (Some t) handler ctx request world
  = (Return (mcp.NewToolResultText text, None), world').
Proof.
  intros Hbind Hval Hcall Hjson. unfold createHandler.
  rewrite Hbind, Hval, Hcall, Hjson.
  cbn [json.Marshal] in Hjson.
  match type of Hjson with
  | match ?items with _ => _ end = _ => destruct items as [ts | e]
  end; [ | discriminate Hjson ].
  injection Hjson as <-. reflexivity.
Qed.

(** X12: a handler result that is a bare number, a boolean, a slice that
    is not nil (or an array), or a value JSON cannot encode is not sent:
    the invocation answers with an error payload and a nil transport
    error.  (A nil result, a nil slice among them, is sent as [null].) *)
Theorem X12_other_results_become_error_payloads
    (target : interface) (result : value) (world' : World) :
  BindArguments request (reflect_New t) = (target, None) ->
  Struct (validator_ w) target = Return None ->
  handler ctx target world = (Return (result, None), world') ->
  match result with
  | VBool _ | VInt _ | VSlice _ | VChan => True
  | VNil | VString _ | VObject _ => False
  end ->
  exists r,
    createHandler w (Some t) handler ctx request world = (Return (r, None), world')
    /\ mcp.IsError r = true.
Proof.
  intros Hbind Hval Hcall Hshape. unfold createHandler.
  rewrite Hbind, Hval, Hcall.
  destruct result as [ | [ | ] | n | s | elems | members | ]; try contradiction.
  - eexists. split; reflexivity.
  - eexists. split; reflexivity.
  - cbn [json.Marshal]. destruct (UnmarshalMap_Itoa n) as [e ->].
    eexists. split; reflexivity.
  - destruct (Marshal_slice elems) as [[e ->] | [r ->]];
      eexists; split; reflexivity.
  - eexists. split; reflexivity.
Qed.

(** X13: when the validator rejects the decoded arguments with field
    errors, the payload is the one line "validation failed: " followed by
    "field: message" for each field error, joined by "; "; the transport
    error is nil and the world is untouched. *)
Theorem X13_validation_payload_is_the_aggregate_message
    (target : interface) (errs : list validator.FieldError) :
  BindArguments request (reflect_New t) = (target, None) ->
  Struct (validator_ w) target = Return (Some (validator_ValidationErrors errs)) ->
  createHandler w (Some t) handler ctx request world
  = (Return (mcp.NewToolResultError
               ("validation failed: "
                +:+ String.concat "; "
                      (map (fun fe => validator.Field fe +:+ ": " +:+ formatFieldError fe)
                           errs)),
             None), world).
Proof.
  intros Hbind Hval. unfold createHandler.
  rewrite Hbind, Hval, formatValidationErrors_each.
  cbn [Error]. rewrite ValidationErrors_Error_joined, map_map. reflexivity.
Qed.

(** X14: a successful [Register] changes the listing under the tool's
    name only: every other tool stays listed as it was, the validator is
    kept, and a tool already listed under the name is replaced. *)
Theorem X14_register_touches_one_name
    (w' : Wrapper) (name description : string) (argsType : option reflect.rtype) :
  Register w name description argsType handler = Return (w', None) ->
  (forall other, other <> name ->
                 ListTools (server w') !! other = ListTools (server w) !! other)
  /\ validator_ w' = validator_ w
  /\ exists tool,
       ListTools (server w') !! name = Some (tool, createHandler w argsType handler)
       /\ mcp.Description tool = description.
Proof.
  intros Hreg.
  destruct (Register_lists_createHandler _ _ _ _ _ _ Hreg)
    as (tool & Hlookup & _ & Hdesc).
  split; [ | split; [ | exists tool; split; assumption ] ];
    unfold Register in Hreg;
    destruct (buildSchema argsType) as [[schema [err | ]] | msg]; try discriminate;
    injection Hreg as <-; [ | reflexivity ].
  intros other Hother. unfold ListTools, AddTool. cbn [server tools].
  destruct schema; cbn [mcp.ToolName mcp.NewTool];
    apply lookup_insert_ne; congruence.
Qed.

End Payloads.

(** ** A command run as a tool *)

Section RunAsTool.
Context `{RT : Runtime}.
Variables (w : Wrapper) (t : reflect.rtype) (cmd : CobraCommand).
Variables (ctx : Context_) (request : mcp.CallToolRequest) (world : World).

(** X15: when the command's [RunE] returns an error, the invocation
    answers "handler error: " followed by the error's message; the
    [success]/[message] record the handler filled in is not sent, and
    [Run] is not called. *)
Theorem X15_failing_RunE_answers_handler_error
    (target : interface) (runE : World -> option error * World)
    (err : error) (world' : World) :
  BindArguments request (reflect_New t) = (target, None) ->
  Struct (validator_ w) target = Return None ->
  RunE cmd = Some runE ->
  runE world = (Some err, world') ->
  createHandler w (Some t) (RegisterCobraCommand_handler cmd) ctx request world
  = (Return (mcp.NewToolResultError ("handler error: " +:+ Error err), None), world').
Proof.
  intros Hbind Hval HrunE Hrun. unfold createHandler, RegisterCobraCommand_handler.
  rewrite Hbind, Hval, HrunE, Hrun. reflexivity.
Qed.

(** X16: when [RunE] is set and returns nil, or [RunE] is nil, the
    invocation answers the JSON object with [success] true and the
    message "Command <Use> executed successfully"; the world is the one
    [RunE] left, else the one [Run] left, else unchanged: [Run] is called
    only when [RunE] is nil. *)
Theorem X16_command_success_answers_json (target : interface) (world' : World) :
  BindArguments request (reflect_New t) = (target, None) ->
  Struct (validator_ w) target = Return None ->
  match RunE cmd, Run cmd with
  | Some runE, _ => runE world = (None, world')
  | None, Some run => world' = run world
  | None, None => world' = world
  end ->
  createHandler w (Some t) (RegisterCobraCommand_handler cmd) ctx request world
  = (Return
       (mcp.NewToolResultText
          ("{" +:+ json.quote escape "success" +:+ ":true,"
           +:+ json.quote escape "message" +:+ ":"
           +:+ json.quote escape
                 ("Command " +:+ Use (command cmd) +:+ " executed successfully")
           +:+ "}"),
        None), world').
Proof.
  intros Hbind Hval Hrun. unfold createHandler, RegisterCobraCommand_handler.
  rewrite Hbind, Hval.
  assert (Hjson : json.Marshal escape
                    (output true ("Command " +:+ Use (command cmd)
                                  +:+ " executed successfully"))
                  = inl ("{" +:+ json.quote escape "success" +:+ ":true,"
                         +:+ json.quote escape "message" +:+ ":"
                         +:+ json.quote escape
                               ("Command " +:+ Use (command cmd)
                                +:+ " executed successfully")
                         +:+ "}")).
  { unfold output. cbn [json.Marshal]. f_equal.
    unfold String.concat.
    rewrite !append_assoc. reflexivity. }
  destruct (RunE cmd) as [runE | ].
  - rewrite Hrun, Hjson. reflexivity.
  - destruct (Run cmd) as [run | ]; subst world'; rewrite Hjson; reflexivity.
Qed.

(** X17: [RegisterCobraCommand] on a command without [Use] fails and
    leaves the wrapper as it was; on any other command it registers, under
    [Use], the pipeline around the command's handler. *)
Theorem X17_command_registration (argsType : option reflect.rtype) :
  (Use (command cmd) = "" ->
   RegisterCobraCommand w cmd argsType
   = Return (w, Some (errorString "cobra command must have a Use field")))
  /\ (forall w',
         RegisterCobraCommand w cmd argsType = Return (w', None) ->
         exists tool,
           ListTools (server w') !! Use (command cmd)
           = Some (tool,
                   createHandler w argsType (RegisterCobraCommand_handler cmd))).
Proof.
  unfold RegisterCobraCommand, RegisterCobra. split.
  - intros ->. reflexivity.
  - intros w'. destruct (String.eqb (Use (command cmd)) ""); [ discriminate | ].
    intros Hreg.
    destruct (Register_lists_createHandler _ _ _ _ _ _ Hreg) as (tool & Hlookup & _).
    exists tool. exact Hlookup.
Qed.

End RunAsTool.

(** ** Tools that can never be invoked *)

Section NeverInvoked.
Variable W : Type.

(** Decoding never changes the type of the target. *)
Lemma BindArguments_keeps_type (request : mcp.CallToolRequest) (target : json.Instance) :
  json.ityp (fst (example.BindArguments request target)) = json.ityp target.
Proof.
  unfold example.BindArguments.
  destruct (json.Marshal _ _); [ | reflexivity ].
  unfold json.Unmarshal.
  destruct (mcp.Arguments request); try reflexivity.
  destruct (fold_left _ _ _). reflexivity.
Qed.

(** X18: a tool registered with a pointer to a struct as its argument
    type registers without error, but no invocation of it ever reaches
    the handler: the value handed to the validator is then a pointer to a
    pointer, which the validator refuses, so every call answers with an
    error payload and leaves the world untouched. *)
Theorem X18_pointer_argument_type_never_reaches_the_handler
    (name description structName : string) (fields : list reflect.StructField)
    (handler : @Handler (example.runtime W))
    (request : mcp.CallToolRequest) (world : W) :
  (exists w',
      Register (New example.emptyServer) name description
        (Some (reflect.TPtr (reflect.TStruct structName fields))) handler
      = Return (w', None))
  /\ exists r,
       createHandler (New example.emptyServer)
         (Some (reflect.TPtr (reflect.TStruct structName fields))) handler
         tt request world
       = (Return (r, None), world)
       /\ mcp.IsError r = true.
Proof.
  split.
  - unfold Register.
    rewrite (@buildSchema_record (example.runtime W)
               (reflect.TPtr (reflect.TStruct structName fields)) eq_refl).
    eexists. reflexivity.
  - unfold createHandler.
    change (@BindArguments (example.runtime W)) with example.BindArguments.
    change (@reflect_New (example.runtime W)) with json.New.
    pose proof (BindArguments_keeps_type request
                  (json.New (reflect.TPtr (reflect.TStruct structName fields))))
      as Htype.
    destruct (example.BindArguments request _) as [target [err | ]].
    + eexists. split; reflexivity.
    + cbn [fst json.New json.ityp] in Htype.
      change (Struct (validator_ (New example.emptyServer)) target)
        with (example.Struct target).
      unfold example.Struct, validator.Struct. rewrite Htype.
      eexists. split; reflexivity.
Qed.

End NeverInvoked.

(** ** The example program *)

Section Calculate.
Variable W : Type.

(** Storing a JSON value into a field keeps the field a value of its
    type. *)
Lemma store_holds (t : reflect.rtype) (v old new : value) :
  json.store t v old = Some new -> holds t old = true -> holds t new = true.
Proof.
  unfold json.store, holds.
  destruct v; destruct (reflect.KindOf t);
    try (destruct (json.inRange _ _));
    intros H Hold; try discriminate H; injection H as <-;
    first [ reflexivity | exact Hold ].
Qed.

Lemma zero_holds (t : reflect.rtype) : holds t (json.zero t) = true.
Proof. unfold holds, json.zero. destruct (reflect.KindOf t); reflexivity. Qed.

Lemma New_wellTyped (t : reflect.rtype) :
  wellTyped (reflect.Fields (reflect.Indirect t)) (json.ivals (json.New t)).
Proof.
  unfold wellTyped, json.New. cbn [json.ivals].
  induction (reflect.Fields (reflect.Indirect t)) as [ | f fields IH]; cbn [map].
  - constructor.
  - constructor; [ apply zero_holds | exact IH ].
Qed.

Lemma member_wellTyped (name : string) (fields : list reflect.StructField)
    (st : list value * option string) (m : string * value) :
  wellTyped fields (fst st) -> wellTyped fields (fst (json.member name fields st m)).
Proof.
  destruct st as [vals first], m as [k v]. unfold json.member. cbn [fst].
  intros Hvals.
  destruct (json.fieldFor fields k) as [i | ]; [ | exact Hvals ].
  destruct (fields !! i) as [f | ] eqn:Hf; [ | exact Hvals ].
  destruct (vals !! i) as [old | ] eqn:Hold; [ | exact Hvals ].
  destruct (json.store (reflect.Typ f) v old) as [new | ] eqn:Hstore;
    cbn [fst]; [ | exact Hvals ].
  unfold wellTyped. rewrite <- (list_insert_id fields i f Hf).
  apply Forall2_insert; [ exact Hvals | ].
  eapply store_holds; [ exact Hstore | ].
  exact (Forall2_lookup_lr _ _ _ i f old Hvals Hf Hold).
Qed.

Lemma members_wellTyped (name : string) (fields : list reflect.StructField)
    (members : list (string * value)) :
  forall st : list value * option string,
    wellTyped fields (fst st) ->
    wellTyped fields (fst (fold_left (json.member name fields) members st)).
Proof.
  induction members as [ | m members IH]; intros st Hst; cbn [fold_left].
  - exact Hst.
  - apply IH. apply member_wellTyped. exact Hst.
Qed.

(** Whatever the arguments are, and whether the decoding succeeds or not,
    the target is afterwards a value of its type, field by field. *)
Lemma BindArguments_wellTyped (request : mcp.CallToolRequest) (t : reflect.rtype) :
  wellTyped (reflect.Fields (reflect.Indirect t))
            (json.ivals (fst (example.BindArguments request (json.New t)))).
Proof.
  unfold example.BindArguments.
  destruct (json.Marshal _ _); [ | apply New_wellTyped ].
  unfold json.Unmarshal.
  destruct (mcp.Arguments request) as [ | | | | | members | ];
    try apply New_wellTyped.
  pose proof (members_wellTyped
                (reflect.TypeString (reflect.Indirect (json.ityp (json.New t))))
                (reflect.Fields (reflect.Indirect (json.ityp (json.New t))))
                members (json.ivals (json.New t), None)) as H.
  destruct (fold_left _ _ _) as [vals err]. cbn [fst json.ivals] in H |- *.
  apply H. apply New_wellTyped.
Qed.

(** The decoded [CalculateArgs]: two integers and a text. *)
Lemma calculate_decoded (request : mcp.CallToolRequest) :
  exists (a b : Z) (op : string),
    fst (example.BindArguments request (json.New simple.CalculateArgs))
    = {| json.ityp := simple.CalculateArgs;
         json.ivals := [VInt a; VInt b; VString op] |}.
Proof.
  pose proof (BindArguments_keeps_type request (json.New simple.CalculateArgs))
    as Htype.
  pose proof (BindArguments_wellTyped request simple.CalculateArgs) as Hvals.
  destruct (fst (example.BindArguments request (json.New simple.CalculateArgs)))
    as [typ vals].
  cbn [json.ityp json.ivals json.New] in Htype, Hvals. subst typ.
  unfold wellTyped in Hvals. cbn [reflect.Fields reflect.Indirect simple.CalculateArgs] in Hvals.
  inversion Hvals as [ | fa va ? l1 Ha H1 ]; subst.
  inversion H1 as [ | fb vb ? l2 Hb H2 ]; subst.
  inversion H2 as [ | fo vo ? l3 Ho H3 ]; subst.
  inversion H3; subst.
  destruct va; try discriminate Ha.
  destruct vb; try discriminate Hb.
  destruct vo; try discriminate Ho.
  eexists _, _, _. reflexivity.
Qed.

Lemma calculate_A (ns : string) (v : value) :
  validator.violation example.noOthers ns (simple.A, v)
  = Return (if validator.hasValue v then None
            else Some (validator.mkFieldError "A" "required" "" (ns +:+ ".A"))).
Proof.
  unfold validator.violation.
  change (validator.validated simple.A) with true.
  change (validator.rules simple.A) with [("required", EmptyString)].
  cbv iota. cbn [validator.field].
  change (String.eqb "required" "omitempty") with false. cbv iota.
  unfold validator.check.
  change (String.eqb "required" "required") with true. cbv iota.
  destruct (validator.hasValue v); reflexivity.
Qed.

Lemma calculate_B (ns : string) :
  validator.violation example.noOthers ns (simple.B, VInt 0)
  = Return (Some (validator.mkFieldError "B" "required" "" (ns +:+ ".B"))).
Proof. reflexivity. Qed.

Lemma calculate_Operation (ns : string) (op : string) :
  exists e, validator.violation example.noOthers ns (simple.Operation, VString op)
            = Return e.
Proof.
  unfold validator.violation.
  change (validator.validated simple.Operation) with true.
  change (validator.rules simple.Operation)
    with [("required", EmptyString); ("oneof", "add subtract multiply divide")].
  cbv iota. cbn [validator.field].
  change (String.eqb "required" "omitempty") with false.
  change (String.eqb "oneof" "omitempty") with false. cbv iota.
  unfold validator.check.
  change (String.eqb "required" "required") with true.
  change (String.eqb "oneof" "required") with false.
  change (existsb (String.eqb "oneof") validator.ordering) with false.
  change (String.eqb "oneof" "oneof") with true. cbv iota.
  destruct (validator.hasValue (VString op)); [ | eexists; reflexivity ].
  destruct (existsb _ _); eexists; reflexivity.
Qed.

(** The validator refuses every [CalculateArgs] whose [B] is zero. *)
Lemma calculate_refused (a : value) (op : string) :
  exists errs,
    example.Struct {| json.ityp := simple.CalculateArgs;
                      json.ivals := [a; VInt 0; VString op] |}
    = Return (Some (validator_ValidationErrors errs)).
Proof.
  unfold example.Struct, validator.Struct, simple.CalculateArgs.
  cbn [json.ityp json.ivals].
  change (forallb _ [simple.A; simple.B; simple.Operation]) with true. cbv iota.
  cbn [combine validator.violations].
  rewrite calculate_A, calculate_B.
  destruct (calculate_Operation (validator.baseName "main.CalculateArgs") op)
    as [e ->].
  destruct (validator.hasValue a); destruct e; eexists; reflexivity.
Qed.

(** X19: in the example program the handler of the calculate tool is
    never run on arguments whose [B], the second field, is zero.  However
    the request comes to decode to such arguments (b given as 0 or as
    null, b left out, the keys in any order, other keys beside them), [B]
    carries the rule [required], which zero fails: the invocation answers
    with an error payload before the handler runs, whatever the handler,
    and leaves the world untouched. *)
Theorem X19_calculate_never_runs_with_zero_divisor
    (handler : @Handler (example.runtime W)) (request : mcp.CallToolRequest)
    (world : W) (args : json.Instance) :
  example.BindArguments request (json.New simple.CalculateArgs) = (args, None) ->
  json.ivals args !! 1%nat = Some (VInt 0) ->
  exists r,
    createHandler (New example.emptyServer) (Some simple.CalculateArgs) handler tt
      request world
    = (Return (r, None), world)
    /\ mcp.IsError r = true.
Proof.
  intros Hbind Hzero.
  unfold createHandler.
  change (@BindArguments (example.runtime W)) with example.BindArguments.
  change (@reflect_New (example.runtime W)) with json.New.
  change (Struct (validator_ (New example.emptyServer))) with example.Struct.
  destruct (calculate_decoded request) as (a & b & op & Hargs).
  rewrite Hbind in Hargs |- *. cbn [fst] in Hargs. subst args.
  cbn [json.ivals] in Hzero. injection Hzero as ->.
  destruct (calculate_refused (VInt a) op) as [errs ->].
  eexists. split; reflexivity.
Qed.

End Calculate.

(** ** Each property, exactly *)

Section PropertyExactly.
Context `{RT : Runtime}.

(** The property and the enum values do not depend on the required list
    nor on the name of the field. *)
Lemma part_independent (n n' : string) (st st' : tagState) (part : string) :
  fst (fst st) = fst (fst st') -> snd st = snd st' ->
  fst (fst (parseJSONSchemaTag_part n st part))
  = fst (fst (parseJSONSchemaTag_part n' st' part))
  /\ snd (parseJSONSchemaTag_part n st part)
     = snd (parseJSONSchemaTag_part n' st' part).
Proof.
  destruct st as [[prop required] enumValues], st' as [[prop' required'] enumValues'].
  cbn [fst snd]. intros <- <-. unfold parseJSONSchemaTag_part.
  destruct (String.eqb (strings.TrimSpace part) "required").
  - destruct (negb (contains required n)), (negb (contains required' n'));
      split; reflexivity.
  - repeat match goal with
           | |- context [if ?b then _ else _] => destruct b
           end; split; reflexivity.
Qed.

Lemma parts_independent (n n' : string) (parts : list string) :
  forall st st' : tagState,
    fst (fst st) = fst (fst st') -> snd st = snd st' ->
    fst (fst (fold_left (parseJSONSchemaTag_part n) parts st))
    = fst (fst (fold_left (parseJSONSchemaTag_part n') parts st'))
    /\ snd (fold_left (parseJSONSchemaTag_part n) parts st)
       = snd (fold_left (parseJSONSchemaTag_part n') parts st').
Proof.
  induction parts as [ | part parts IH]; intros st st' Hp He; cbn [fold_left].
  - split; assumption.
  - destruct (part_independent n n' st st' part Hp He) as [Hp' He'].
    apply IH; assumption.
Qed.

Lemma parseJSONSchemaTag_independent (tag : string)
    (prop : gmap string (mcp.any float64)) (required required' : list string)
    (n n' : string) :
  fst (parseJSONSchemaTag tag prop required n)
  = fst (parseJSONSchemaTag tag prop required' n').
Proof.
  unfold parseJSONSchemaTag.
  destruct (parts_independent n n' (strings.Split tag ",")
              (prop, required, []) (prop, required', []) eq_refl eq_refl)
    as [Hp He].
  destruct (fold_left (parseJSONSchemaTag_part n) _ _) as [[p1 r1] e1].
  destruct (fold_left (parseJSONSchemaTag_part n') _ _) as [[p2 r2] e2].
  cbn [fst snd] in Hp, He |- *. subst. reflexivity.
Qed.

Lemma buildSchema_field_property (st : schemaState) (f : reflect.StructField) :
  named f = true ->
  fst (buildSchema_field st f) = <[ jsonName f := propertyOf f ]> (fst st).
Proof.
  destruct st as [properties required].
  unfold named, buildSchema_field, propertyOf, jsonName.
  destruct (String.eqb (reflect.Get (reflect.Tag f) "json") "");
    [ discriminate | ].
  destruct (String.eqb (reflect.Get (reflect.Tag f) "json") "-");
    [ discriminate | ].
  intros _. cbn [orb].
  destruct (negb (String.eqb (reflect.Get (reflect.Tag f) "jsonschema") "")).
  - rewrite (parseJSONSchemaTag_independent _ _ []
               required _
               (hd EmptyString (strings.Split (reflect.Get (reflect.Tag f) "json") ","))).
    destruct (parseJSONSchemaTag _ _ required _) as [prop' required'].
    reflexivity.
  - reflexivity.
Qed.

Lemma find_snoc {A} (p : A -> bool) (l : list A) (x : A) :
  List.find p (l ++ [x])
  = match List.find p l with
    | Some y => Some y
    | None => if p x then Some x else None
    end.
Proof.
  induction l as [ | y l IH]; cbn [app List.find].
  - reflexivity.
  - destruct (p y); [ reflexivity | exact IH ].
Qed.

Lemma buildSchema_fields_property (k : string) (fields : list reflect.StructField) :
  forall st : schemaState,
    fst (fold_left buildSchema_field fields st) !! k
    = match List.find (fun f => named f && String.eqb (jsonName f) k) (rev fields) with
      | Some f => Some (propertyOf f)
      | None => fst st !! k
      end.
Proof.
  induction fields as [ | f fields IH]; intros st; cbn [fold_left rev].
  - reflexivity.
  - rewrite IH, find_snoc.
    destruct (List.find _ (rev fields)); [ reflexivity | ].
    destruct (named f) eqn:Hnamed; cbn [andb].
    + rewrite (buildSchema_field_property st f Hnamed).
      destruct (String.eqb (jsonName f) k) eqn:Hk.
      * apply String.eqb_eq in Hk. subst k. apply lookup_insert_eq.
      * apply String.eqb_neq in Hk. apply lookup_insert_ne. exact Hk.
    + rewrite (buildSchema_field_skipped st f Hnamed). reflexivity.
Qed.

(** X20: the property a derived schema holds under a key is the one
    described by the annotations of the last field, in declaration order,
    that is not skipped and whose json annotation gives the key as its
    name (the text before its first comma); it depends on no other field
    and not on the required list.  No such field, no property. *)
Theorem X20_last_field_of_a_name_gives_the_property
    (t : reflect.rtype) (schema : mcp.ToolInputSchema float64) (k : string) :
  buildSchema (Some t) = Return (Some schema, None) ->
  mcp.Properties schema !! k
  = option_map propertyOf
      (List.find (fun f => named f && String.eqb (jsonName f) k)
                 (rev (reflect.Fields (reflect.Indirect t)))).
Proof.
  intros Hbuild. rewrite (buildSchema_properties t schema Hbuild).
  rewrite buildSchema_fields_property. cbn [fst].
  destruct (List.find _ _); [ reflexivity | apply lookup_empty ].
Qed.

End PropertyExactly.

(** ** Messages for rules without a template *)

(** X21: a field error whose rule is none of [required], [min], [max],
    [email], [url], [oneof], [gte], [lte], [gt], [lt], [len] is worded
    "failed validation: " followed by the name of the rule. *)
Theorem X21_unknown_rule_gets_the_generic_message (fieldErr : validator.FieldError) :
  ~ In (validator.Tag fieldErr)
       ["required"; "min"; "max"; "email"; "url"; "oneof";
        "gte"; "lte"; "gt"; "lt"; "len"] ->
  formatFieldError fieldErr = "failed validation: " +:+ validator.Tag fieldErr.
Proof.
  intros Hnot. unfold formatFieldError.
  repeat match goal with
         | |- context [if String.eqb ?a ?b then _ else _] =>
             destruct (String.eqb a b) eqn:E;
             [ apply String.eqb_eq in E; exfalso; apply Hnot; rewrite E;
               cbn; tauto
             | clear E ]
         end.
  reflexivity.
Qed.

(** ** The schema and the wire *)

Section WireNames.
Context `{RT : Runtime}.



End WireNames.

(** ** The further properties at work on the examples *)

Lemma X1_profile_required_list :
  exists schema,
    @buildSchema (example.runtime unit) (Some example.Profile)
    = Return (Some schema, None)
    /\ mcp.Required schema = ["name"; "partner"].
Proof.
  eexists. split.
  - apply buildSchema_record. reflexivity.
  - rewrite (@X1_required_list_in_declaration_order (example.runtime unit)
               example.Profile _ (buildSchema_record example.Profile eq_refl)).
    reflexivity.
Defined.

Lemma X2_profile_name_has_a_property :
  exists schema,
    @buildSchema (example.runtime unit) (Some example.Profile)
    = Return (Some schema, None)
    /\ is_Some (mcp.Properties schema !! "name").
Proof.
  eexists. split.
  - apply buildSchema_record. reflexivity.
  - apply (proj2 (@X2_properties_are_the_named_fields (example.runtime unit)
                    example.Profile _ "name"
                    (buildSchema_record example.Profile eq_refl))).
    exists example.nameOfProfile.
    split; [ left; reflexivity | split; reflexivity ].
Defined.

Lemma X3_profile_name_is_a_string :
  exists schema prop,
    @buildSchema (example.runtime unit) (Some example.Profile)
    = Return (Some schema, None)
    /\ mcp.Properties schema !! "name" = Some prop
    /\ exists f,
         In f (reflect.Fields (reflect.Indirect example.Profile))
         /\ named f = true /\ jsonName f = "name"
         /\ prop !! "type" = Some (mcp.AString (inferType (reflect.Typ f)))
         /\ In (inferType (reflect.Typ f)) jsonTypes.
Proof.
  do 2 eexists. split; [ apply buildSchema_record; reflexivity | ].
  split; [ reflexivity | ].
  apply (@X3_property_type_comes_from_the_field (example.runtime unit)
           example.Profile _ "name" _ (buildSchema_record example.Profile eq_refl)).
  reflexivity.
Defined.

Lemma X4_profile_partner_has_a_property :
  exists schema,
    @buildSchema (example.runtime unit) (Some example.Profile)
    = Return (Some schema, None)
    /\ is_Some (mcp.Properties schema !! "partner").
Proof.
  eexists. split.
  - apply buildSchema_record. reflexivity.
  - apply (@X4_required_names_have_properties (example.runtime unit)
             example.Profile _ "partner" (buildSchema_record example.Profile eq_refl)).
    right. left. reflexivity.
Defined.

Lemma X7_second_maximum_wins :
  fst (@parseJSONSchemaTag (example.runtime unit)
         "minimum=0, maximum=100 ,maximum=120" ∅ [] "age") !! "maximum"
  = Some (mcp.AInt 120).
Proof.
  rewrite (@X7_last_numeric_token_wins (example.runtime unit)
             "minimum=0, maximum=100 ,maximum=120" ∅ [] "age" "maximum").
  - reflexivity.
  - right. left. reflexivity.
Defined.

Lemma X9_hundred_and_twenty_percent :
  @parseNumber (example.runtime unit) (strconv.Itoa 120 +:+ "%") = mcp.AInt 120.
Proof.
  apply (@X9_decimal_integer_prefix_is_the_number (example.runtime unit) 120 "%").
  - split; [ vm_compute; discriminate | reflexivity ].
  - reflexivity.
Defined.

Lemma X10_greeting_sent_raw :
  @createHandler (example.runtime nat) (New example.emptyServer)
    (Some example.TestArgs) (example.recording (VString "Hey Al!", None)) tt
    (example.request "test-tool"
       [("name", VString "Alice"); ("age", VInt 30); ("category", VString "A")])
    0%nat
  = (Return (mcp.NewToolResultText "Hey Al!", None), 1%nat).
Proof.
  eapply (@X10_string_result_is_sent_raw (example.runtime nat)); reflexivity.
Defined.

Lemma X11_message_sent_as_json :
  exists text,
    json.Marshal (fun s => s) (VObject [("message", VString "Hello")]) = inl text
    /\ @createHandler (example.runtime nat) (New example.emptyServer)
         (Some example.TestArgs)
         (example.recording (VObject [("message", VString "Hello")], None)) tt
         (example.request "test-tool"
            [("name", VString "Alice"); ("age", VInt 30); ("category", VString "A")])
         0%nat
       = (Return (mcp.NewToolResultText text, None), 1%nat).
Proof.
  eexists. split; [ reflexivity | ].
  eapply (@X11_object_result_is_sent_as_json (example.runtime nat)); reflexivity.
Defined.

Lemma X12_bare_number_is_refused :
  exists r,
    @createHandler (example.runtime nat) (New example.emptyServer)
      (Some example.TestArgs) (example.recording (VInt 7, None)) tt
      (example.request "test-tool"
         [("name", VString "Alice"); ("age", VInt 30); ("category", VString "A")])
      0%nat
    = (Return (r, None), 1%nat)
    /\ mcp.IsError r = true.
Proof.
  eapply (@X12_other_results_become_error_payloads (example.runtime nat)
            _ _ _ _ _ _ _ (VInt 7)); reflexivity.
Defined.

Lemma X13_two_fields_in_one_line :
  @createHandler (example.runtime nat) (New example.emptyServer)
    (Some example.TestArgs) (example.recording (VNil, None)) tt
    (example.request "test-tool"
       [("name", VString "Al"); ("age", VInt 150); ("category", VString "A")])
    0%nat
  = (Return (mcp.NewToolResultError
               "validation failed: Name: must be at least 3; Age: must be less than or equal to 120",
             None), 0%nat).
Proof.
  eapply (@X13_validation_payload_is_the_aggregate_message (example.runtime nat)
            _ _ _ _ _ _ _
            [ validator.mkFieldError "Name" "min" "3" "TestArgs.Name";
              validator.mkFieldError "Age" "lte" "120" "TestArgs.Age" ]);
    reflexivity.
Defined.

Lemma X14_second_tool_leaves_the_first :
  exists w1 w2,
    Register (New example.emptyServer) "first" "The first tool"
      (Some example.TestArgs) (example.recording (VNil, None))
    = Return (w1, None)
    /\ Register w1 "second" "The second tool"
         (Some example.Profile) (example.recording (VNil, None))
       = Return (w2, None)
    /\ ListTools (server w2) !! "first" = ListTools (server w1) !! "first".
Proof.
  do 2 eexists. split; [ | split ].
  - unfold Register.
    rewrite (@buildSchema_record (example.runtime nat) example.TestArgs eq_refl).
    reflexivity.
  - unfold Register.
    rewrite (@buildSchema_record (example.runtime nat) example.Profile eq_refl).
    reflexivity.
  - refine (proj1 (@X14_register_touches_one_name (example.runtime nat)
                     _ (example.recording (VNil, None)) _ "second" "The second tool"
                     (Some example.Profile) _) "first" _).
    + unfold Register.
      rewrite (@buildSchema_record (example.runtime nat) example.Profile eq_refl).
      reflexivity.
    + discriminate.
Defined.

Lemma X15_failing_command :
  @createHandler (example.runtime nat) (New example.emptyServer)
    (Some example.TestArgs)
    (RegisterCobraCommand_handler
       (@mkCobraCommand (example.runtime nat) example.deploy
          (Some (fun runs : nat => (Some (errorString "no target"), S runs)))
          (Some (fun runs : nat => (runs + 10)%nat))))
    tt
    (example.request "deploy"
       [("name", VString "Alice"); ("age", VInt 30); ("category", VString "A")])
    0%nat
  = (Return (mcp.NewToolResultError "handler error: no target", None), 1%nat).
Proof.
  eapply (X15_failing_RunE_answers_handler_error (RT := example.runtime nat)
            _ _ _ _ _ _ _ _ (errorString "no target") 1%nat);
    reflexivity.
Defined.

Lemma X16_command_with_Run_only :
  @createHandler (example.runtime nat) (New example.emptyServer)
    (Some example.TestArgs)
    (RegisterCobraCommand_handler
       (@mkCobraCommand (example.runtime nat) example.deploy None
          (Some (fun runs : nat => (runs + 10)%nat))))
    tt
    (example.request "deploy"
       [("name", VString "Alice"); ("age", VInt 30); ("category", VString "A")])
    0%nat
  = (Return
       (mcp.NewToolResultText
          ("{" +:+ json.quote (fun s => s) "success" +:+ ":true,"
           +:+ json.quote (fun s => s) "message" +:+ ":"
           +:+ json.quote (fun s => s) "Command deploy executed successfully"
           +:+ "}"),
        None), 10%nat).
Proof.
  eapply (@X16_command_success_answers_json (example.runtime nat)); reflexivity.
Defined.

Lemma X17_command_without_use :
  @RegisterCobraCommand (example.runtime nat) (New example.emptyServer)
    (@mkCobraCommand (example.runtime nat) example.noUse None None)
    (Some example.TestArgs)
  = Return (New example.emptyServer,
            Some (errorString "cobra command must have a Use field")).
Proof.
  apply (proj1 (@X17_command_registration (example.runtime nat)
                  (New example.emptyServer)
                  (@mkCobraCommand (example.runtime nat) example.noUse None None)
                  (Some example.TestArgs))).
  reflexivity.
Defined.

Lemma X20_profile_name_property :
  exists schema,
    @buildSchema (example.runtime unit) (Some example.Profile)
    = Return (Some schema, None)
    /\ mcp.Properties schema !! "name"
       = Some (@propertyOf (example.runtime unit) example.nameOfProfile).
Proof.
  eexists. split.
  - apply buildSchema_record. reflexivity.
  - rewrite (@X20_last_field_of_a_name_gives_the_property (example.runtime unit)
               example.Profile _ "name" (buildSchema_record example.Profile eq_refl)).
    reflexivity.
Defined.

Lemma X21_required_with_is_worded_generically :
  formatFieldError (validator.mkFieldError "Partner" "required_with" "Name" "Profile.Partner")
  = "failed validation: required_with".
Proof.
  apply (X21_unknown_rule_gets_the_generic_message
           (validator.mkFieldError "Partner" "required_with" "Name" "Profile.Partner")).
  cbn. intros H.
  repeat (destruct H as [H | H]; [ discriminate H | ]). exact H.
Defined.

Lemma X19_request_without_b :
  exists r,
    @createHandler (example.runtime nat) (New example.emptyServer)
      (Some simple.CalculateArgs) (example.recording (VNil, None)) tt
      (example.request "calculate" [("operation", VString "divide"); ("a", VInt 6)])
      0%nat
    = (Return (r, None), 0%nat)
    /\ mcp.IsError r = true.
Proof.
  eapply (X19_calculate_never_runs_with_zero_divisor nat); reflexivity.
Defined.

